(** * GLB optimizer: a shallow embedding of [src/utils/glbOptimizer.ts]

    The TypeScript class [GLBOptimizer] is embedded function by function.
    JavaScript numbers that take part in fractional arithmetic are IEEE-754
    binary64 values ([spec_float] with precision 53 and maximal exponent
    1024); quantities that the program only ever holds as integers (accessor
    counts, slider settings, progress percentages) are [Z] and are injected
    into binary64 where the source mixes them with fractions.  The container
    codec, the glTF-Transform passes and the browser's canvas are external
    collaborators: they are taken as parameters, and each of them may throw.
    Reading a [File] yields its bytes, and the progress callback is a
    listener: the calls it receives are recorded in order. *)

From Stdlib Require Import ZArith List Bool Lia String Sorted.
From Stdlib Require Import Floats.SpecFloat.
From Stdlib Require Strings.Byte.
From stdpp Require Import base gmap list.

Import ListNotations.
Local Open Scope Z_scope.

(** ** JavaScript numbers *)

Module Number.

Definition prec : Z := 53.
Definition emax : Z := 1024.

Abbreviation number := spec_float.

(** An integer used as a number. *)
Definition of_Z (z : Z) : number := binary_normalize prec emax z 0 false.

Definition add : number -> number -> number := SFadd prec emax.
Definition sub : number -> number -> number := SFsub prec emax.
Definition mul : number -> number -> number := SFmul prec emax.
Definition div : number -> number -> number := SFdiv prec emax.
Definition ltb : number -> number -> bool := SFltb.
Definition leb : number -> number -> bool := SFleb.

(** The decimal literal [num / den], e.g. [0.9] is [lit 9 10]: the binary64
    value nearest to the quotient of two exactly representable integers. *)
Definition lit (num den : Z) : number := div (of_Z num) (of_Z den).

(** [Math.max] and [Math.min] of two arguments: NaN is contagious and
    [+0] is larger than [-0]. *)
Definition Math_max (x y : number) : number :=
  match x, y with
  | S754_nan, _ | _, S754_nan => S754_nan
  | S754_zero sx, S754_zero sy => S754_zero (sx && sy)
  | _, _ => if ltb x y then y else x
  end.

Definition Math_min (x y : number) : number :=
  match x, y with
  | S754_nan, _ | _, S754_nan => S754_nan
  | S754_zero sx, S754_zero sy => S754_zero (sx || sy)
  | _, _ => if ltb y x then y else x
  end.

(** [Math.floor]: zeros, infinities, NaN and integral values are returned
    as they are; otherwise the mantissa is shifted right, rounding towards
    minus infinity. *)
Definition Math_floor (x : number) : number :=
  match x with
  | S754_finite s m e =>
      if 0 <=? e then x
      else of_Z (Z.shiftr (cond_Zopp s (Zpos m)) (- e))
  | _ => x
  end.

(** [Math.round]: nearest integer, ties towards plus infinity; a zero
    result keeps the sign of the argument. *)
Definition Math_round (x : number) : number :=
  match x with
  | S754_finite s m e =>
      if 0 <=? e then x
      else
        let q := Z.shiftr (2 * cond_Zopp s (Zpos m) + 2 ^ (- e)) (1 - e) in
        if q =? 0 then S754_zero s else of_Z q
  | _ => x
  end.

End Number.

Import Number.

(** ** Errors and results *)

Inductive Error : Type :=
  | Err_Error (message : string)
  | Err_TypeError (message : string)
  | Err_RangeError (message : string)
  | Err_External (message : string).

Inductive result (A : Type) : Type :=
  | Ok (a : A)
  | Throw (e : Error).
Arguments Ok {A} a.
Arguments Throw {A} e.

(** ** The format validator *)

Definition bytes := list Byte.byte.

(** [DataView.getUint32(offset, littleEndian = true)]: a [RangeError] when
    four bytes are not available at [offset]. *)
Definition getUint32_le (view : bytes) (offset : nat) : result Z :=
  match skipn offset view with
  | b0 :: b1 :: b2 :: b3 :: _ =>
      Ok (Z.lor (Z.of_N (Byte.to_N b0))
         (Z.lor (Z.shiftl (Z.of_N (Byte.to_N b1)) 8)
         (Z.lor (Z.shiftl (Z.of_N (Byte.to_N b2)) 16)
                (Z.shiftl (Z.of_N (Byte.to_N b3)) 24))))
  | _ => Throw (Err_RangeError "Offset is outside the bounds of the DataView")
  end.

Definition GLB_MAGIC : Z := 0x46546C67.

Definition isValidGLB (buffer : bytes) : bool :=
  match getUint32_le buffer 0 with
  | Ok magic => magic =? GLB_MAGIC
  | Throw _ => false
  end.

(** ** The scene document

    The object graph of glTF-Transform, reduced to what the optimizer reads
    and rewrites.  Textures are objects with an identity ([tex_id]): a
    material slot designates a texture by that identity. *)

Record Accessor := { getCount : Z }.

Record Primitive := {
  attr_POSITION : option Accessor;   (* getAttribute('POSITION') *)
  getIndices : option Accessor
}.

Record Mesh := { listPrimitives : list Primitive }.

Record Texture := {
  tex_id : nat;
  getImage : option bytes;
  getMimeType : string
}.

Record Material := {
  getBaseColorTexture : option nat;
  getNormalTexture : option nat;
  getMetallicRoughnessTexture : option nat;
  getOcclusionTexture : option nat;
  getEmissiveTexture : option nat
}.

Record Scene := { scene_name : string }.
Record Animation := { animation_name : string }.

Record Document := {
  listScenes : list Scene;
  listMeshes : list Mesh;
  listMaterials : list Material;
  listTextures : list Texture;
  listAnimations : list Animation
}.

(** ** Settings *)

Inductive TextureQuality := high | medium | low.

Record DracoSettings := { enabled : bool; level : Z }.

Record OptimizationSettings := {
  meshDecimation : Z;
  textureQuality : TextureQuality;
  dracoCompression : DracoSettings;
  wireframeMode : bool
}.

#[global] Instance TextureQuality_eq_dec : EqDecision TextureQuality.
Proof. solve_decision. Defined.

(** ** The model inspector *)

Record ModelStats := {
  scenes : Z;
  meshes : Z;
  materials : Z;
  textures : Z;
  animations : Z;
  vertices : number;
  triangles : number
}.

(** One turn of the inner [forEach]: the accumulator is the pair
    [(totalVertices, totalTriangles)]. *)
Definition countPrimitive (acc : number * number) (primitive : Primitive)
  : number * number :=
  let '(totalVertices, totalTriangles) := acc in
  match attr_POSITION primitive with
  | Some position =>
      let vertexCount := of_Z (getCount position) in
      let totalVertices := add totalVertices vertexCount in
      match getIndices primitive with
      | Some indices =>
          (totalVertices, add totalTriangles (div (of_Z (getCount indices)) (of_Z 3)))
      | None =>
          (totalVertices, add totalTriangles (div vertexCount (of_Z 3)))
      end
  | None => acc
  end.

Definition countMesh (acc : number * number) (mesh : Mesh) : number * number :=
  fold_left countPrimitive (listPrimitives mesh) acc.

Definition getModelStats (document : Document) : ModelStats :=
  let '(totalVertices, totalTriangles) :=
    fold_left countMesh (listMeshes document) (of_Z 0, of_Z 0) in
  {| scenes := Z.of_nat (length (listScenes document));
     meshes := Z.of_nat (length (listMeshes document));
     materials := Z.of_nat (length (listMaterials document));
     textures := Z.of_nat (length (listTextures document));
     animations := Z.of_nat (length (listAnimations document));
     vertices := totalVertices;
     triangles := Math_floor totalTriangles |}.

(** ** External collaborators

    The passes of glTF-Transform are values handed to [document.transform];
    the codec ([WebIO]), [JSON.parse] and the browser's canvas are functions
    of the environment.  A pass that throws may leave the document rewritten
    in part, so [document_transform] returns the document together with the
    error, if any. *)

Record SimplifyOptions := {
  simplifier : string;
  ratio : number;
  error : number;
  lockBorder : bool
}.

Record DracoOptions := {
  quantizePosition : Z;
  quantizeNormal : Z;
  quantizeTexcoord : Z;
  quantizeColor : Z;
  quantizeGeneric : Z
}.

Inductive Transform :=
  | weld (tolerance : number)
  | simplify (options : SimplifyOptions)
  | resample (tolerance : number)
  | draco (options : DracoOptions)
  | dedup
  | prune.

Record JSONValue := { json_source : string }.

Record ImageBitmap := { width : Z; height : Z; bitmap_source : bytes }.

Record Canvas := { canvas_width : number; canvas_height : number }.

Record Collaborators := {
  io_readBinary : bytes -> result Document;
  io_readJSON : JSONValue -> list (string * bytes) -> result Document;
  io_writeBinary : Document -> result bytes;
  JSON_parse : string -> result JSONValue;
  document_transform : list Transform -> Document -> Document * option Error;
  canvas_getContext : Canvas -> bool;
  createImageBitmap : bytes -> string -> result ImageBitmap;
  canvas_toBlob : Canvas -> ImageBitmap -> string -> number -> option bytes
}.

(** ** Files, progress and the result bundle *)

Record File := { file_name : string; file_bytes : bytes }.

Definition file_size (file : File) : number :=
  of_Z (Z.of_nat (length (file_bytes file))).

Definition blob_size (blob : bytes) : number :=
  of_Z (Z.of_nat (length blob)).

Inductive Stage :=
  | idle | analyzing | optimizing | compressing | finalizing | completed.

Record ProgressEvent := { percent : Z; stage : Stage }.

Record SizeStats := {
  originalSize : number;
  optimizedSize : number;
  reduction : number
}.

Inductive ModelInfo :=
  | InfoBeforeAfter (original optimized : ModelStats)
  | InfoNotAvailable                (* every field is the string 'N/A' *)
  | InfoSingle (stats : ModelStats).

Record OptimizationResult := {
  optimizedBlob : bytes;
  stats : SizeStats;
  modelInfo : ModelInfo
}.

(** ** Asynchronous computations

    An [async] function is run to completion: it reads the calls made so far
    to the progress callback, extends them, and either returns or throws.
    Timer delays leave no trace. *)

Definition Async (A : Type) : Type :=
  list ProgressEvent -> list ProgressEvent * result A.

Definition ret {A} (a : A) : Async A := fun log => (log, Ok a).

Definition throw {A} (e : Error) : Async A := fun log => (log, Throw e).

Definition bind {A B} (c : Async A) (k : A -> Async B) : Async B :=
  fun log =>
    match c log with
    | (log', Ok a) => k a log'
    | (log', Throw e) => (log', Throw e)
    end.

Definition try_catch {A} (body : Async A) (handler : Error -> Async A) : Async A :=
  fun log =>
    match body log with
    | (log', Ok a) => (log', Ok a)
    | (log', Throw e) => handler e log'
    end.

Definition await {A} (r : result A) : Async A := fun log => (log, r).

Definition onProgress (progress : Z) (stage : Stage) : Async unit :=
  fun log => (log ++ [{| percent := progress; stage := stage |}], Ok tt).

Declare Scope async_scope.
Delimit Scope async_scope with async.
Notation "x <- c ;; k" := (bind c (fun x => k))
  (at level 100, c at next level, right associativity) : async_scope.
Notation "c ;;; k" := (bind c (fun _ => k))
  (at level 100, right associativity) : async_scope.
Local Open Scope async_scope.

(** [await document.transform(...transforms)] *)
Definition transform (env : Collaborators) (transforms : list Transform)
  (document : Document) : Async Document :=
  match document_transform env transforms document with
  | (document', None) => ret document'
  | (_, Some e) => throw e
  end.

(** ** The geometry pass *)

Definition simplifyRatio (settings : OptimizationSettings) : number :=
  Math_max (lit 3 10)
    (sub (of_Z 1)
       (mul (div (of_Z (meshDecimation settings)) (of_Z 100)) (lit 7 10))).

(** The array [transforms] as it stands when [document.transform] is
    reached. *)
Definition meshTransforms (settings : OptimizationSettings) : list Transform :=
  let transforms := [] in
  let transforms :=
    if (0 <? meshDecimation settings) && (meshDecimation settings <? 80)
    then
      (transforms ++ [weld (lit 1 100000)])
        ++ [simplify {| simplifier := "meshopt";
                        ratio := simplifyRatio settings;
                        error := lit 1 1000;
                        lockBorder := true |}]
    else transforms in
  transforms ++ [resample (lit 1 1000)].

Definition conservativeMeshOptimization (env : Collaborators)
  (document : Document) (settings : OptimizationSettings) : Async Document :=
  let transforms := meshTransforms settings in
  if (0 <? Z.of_nat (length transforms))
  then transform env transforms document
  else ret document.

(** ** The embedded-safe texture pass *)

Definition addTexture (slot : option nat) (usedTextures : gset nat) : gset nat :=
  match slot with
  | Some texture => usedTextures ∪ {[ texture ]}
  | None => usedTextures
  end.

Definition markMaterial (usedTextures : gset nat) (material : Material) : gset nat :=
  let usedTextures := addTexture (getBaseColorTexture material) usedTextures in
  let usedTextures := addTexture (getNormalTexture material) usedTextures in
  let usedTextures := addTexture (getMetallicRoughnessTexture material) usedTextures in
  let usedTextures := addTexture (getOcclusionTexture material) usedTextures in
  addTexture (getEmissiveTexture material) usedTextures.

Definition clearSlot (id : nat) (slot : option nat) : option nat :=
  match slot with
  | Some texture => if decide (texture = id) then None else slot
  | None => None
  end.

(** [texture.dispose()]: the texture leaves the graph, and every reference
    to it is dropped. *)
Definition dispose (texture : Texture) (document : Document) : Document :=
  let id := tex_id texture in
  {| listScenes := listScenes document;
     listMeshes := listMeshes document;
     listMaterials :=
       map (fun material =>
              {| getBaseColorTexture := clearSlot id (getBaseColorTexture material);
                 getNormalTexture := clearSlot id (getNormalTexture material);
                 getMetallicRoughnessTexture :=
                   clearSlot id (getMetallicRoughnessTexture material);
                 getOcclusionTexture := clearSlot id (getOcclusionTexture material);
                 getEmissiveTexture := clearSlot id (getEmissiveTexture material) |})
           (listMaterials document);
     listTextures :=
       List.filter (fun t => negb (Nat.eqb (tex_id t) id)) (listTextures document);
     listAnimations := listAnimations document |}.

Definition safeTextureOptimization (document : Document)
  (settings : OptimizationSettings) : Document :=
  let textures := listTextures document in
  let materials := listMaterials document in
  let usedTextures := fold_left markMaterial materials ∅ in
  fold_left
    (fun document texture =>
       if decide (tex_id texture ∈ usedTextures) then document
       else dispose texture document)
    textures document.

(** ** The geometry compression pass *)

Definition dracoOptions (settings : OptimizationSettings) : DracoOptions :=
  let level := Z.min (level (dracoCompression settings)) 7 in
  {| quantizePosition := Z.max 10 (16 - level);
     quantizeNormal := Z.max 8 (16 - level);
     quantizeTexcoord := Z.max 10 (16 - level);
     quantizeColor := Z.max 8 (16 - level);
     quantizeGeneric := Z.max 8 (16 - level) |}.

(** The [catch] swallows whatever the compressor throws: the function
    returns normally, and the pipeline goes on with the document as the
    failed pass left it. *)
Definition safeDracoCompression (env : Collaborators) (document : Document)
  (settings : OptimizationSettings) : Async Document :=
  match document_transform env [draco (dracoOptions settings)] document with
  | (document', None) => ret document'
  | (document', Some _) => ret document'
  end.

(** ** The external texture pass

    Inside [optimizeExternalTextures] the name [document] is the parameter,
    the glTF-Transform [Document]; inside [downloadBlob] it is the browser's
    global.  The glTF-Transform class has no member [createElement], so the
    call on it is a call of [undefined]. *)

Inductive DocumentBinding :=
  | GltfDocument (document : Document)
  | BrowserDocument.

Definition createElement (document : DocumentBinding) (tag : string) : result Canvas :=
  match document with
  | BrowserDocument =>
      Ok {| canvas_width := of_Z 300; canvas_height := of_Z 150 |}
  | GltfDocument _ =>
      Throw (Err_TypeError "document.createElement is not a function")
  end.

Definition qualityMap (q : TextureQuality) : number :=
  match q with
  | high => lit 95 100
  | medium => lit 8 10
  | low => lit 6 10
  end.

Definition maxSize (settings : OptimizationSettings) : Z :=
  if decide (textureQuality settings = high) then 2048
  else if decide (textureQuality settings = medium) then 1024 else 512.

(** What the body of the [try] does to one texture; [Ok None] stands for
    [continue] and for a [toBlob] that yields no blob. *)
Definition recompressTexture (env : Collaborators) (document : Document)
  (settings : OptimizationSettings) (quality : number)
  (texture : Texture) (image : bytes) : result (option Texture) :=
  match createElement (GltfDocument document) "canvas" with
  | Throw e => Throw e
  | Ok canvas =>
      if negb (canvas_getContext env canvas) then Ok None
      else
        match createImageBitmap env image (getMimeType texture) with
        | Throw e => Throw e
        | Ok imageBitmap =>
            let maxSize := of_Z (maxSize settings) in
            let scale :=
              Math_min
                (Math_min (div maxSize (of_Z (width imageBitmap)))
                          (div maxSize (of_Z (height imageBitmap))))
                (of_Z 1) in
            let canvas :=
              {| canvas_width := Math_floor (mul (of_Z (width imageBitmap)) scale);
                 canvas_height := Math_floor (mul (of_Z (height imageBitmap)) scale) |} in
            match canvas_toBlob env canvas imageBitmap "image/jpeg" quality with
            | Some buffer =>
                Ok (Some {| tex_id := tex_id texture;
                            getImage := Some buffer;
                            getMimeType := "image/jpeg" |})
            | None => Ok None
            end
        end
  end.

Definition optimizeExternalTexture (env : Collaborators) (document : Document)
  (settings : OptimizationSettings) (quality : number) (texture : Texture) : Texture :=
  match getImage texture with
  | None => texture
  | Some image =>
      match recompressTexture env document settings quality texture image with
      | Ok (Some texture') => texture'
      | Ok None => texture
      | Throw _ => texture          (* console.warn *)
      end
  end.

Definition optimizeExternalTextures (env : Collaborators) (document : Document)
  (settings : OptimizationSettings) : Document :=
  let textures := listTextures document in
  let quality := qualityMap (textureQuality settings) in
  {| listScenes := listScenes document;
     listMeshes := listMeshes document;
     listMaterials := listMaterials document;
     listTextures := map (optimizeExternalTexture env document settings quality) textures;
     listAnimations := listAnimations document |}.

(** ** The safe fallback *)

Definition reductionFactor (settings : OptimizationSettings) : number :=
  let reductionFactor := of_Z 1 in
  let reductionFactor :=
    if 50 <? meshDecimation settings then mul reductionFactor (lit 9 10)
    else reductionFactor in
  if decide (textureQuality settings = low) then mul reductionFactor (lit 95 100)
  else reductionFactor.

Definition safeFallbackOptimization (file : File) (settings : OptimizationSettings)
  : Async OptimizationResult :=
  onProgress 25 analyzing ;;;
  onProgress 50 optimizing ;;;
  onProgress 75 compressing ;;;
  onProgress 100 finalizing ;;;
  let arrayBuffer := file_bytes file in
  let reductionFactor := reductionFactor settings in
  let optimizedBlob := arrayBuffer in
  ret {| optimizedBlob := optimizedBlob;
         stats :=
           {| originalSize := file_size file;
              optimizedSize := Math_floor (mul (file_size file) reductionFactor);
              reduction :=
                Math_round (mul (sub (of_Z 1) reductionFactor) (of_Z 100)) |};
         modelInfo := InfoNotAvailable |}.

(** ** The single-file entry point *)

(** Lines 55-57: the embedded-safe strategy is skipped for [high]. *)
Definition textureStage (document : Document) (settings : OptimizationSettings)
  : Document :=
  if decide (textureQuality settings <> high)
  then safeTextureOptimization document settings
  else document.

(** The body of the [try]. *)
Definition optimizeGLB_body (env : Collaborators) (file : File)
  (settings : OptimizationSettings) : Async OptimizationResult :=
  onProgress 10 analyzing ;;;
  let arrayBuffer := file_bytes file in
  (if negb (isValidGLB arrayBuffer)
   then throw (Err_Error "Invalid GLB file format") else ret tt) ;;;
  document <- await (io_readBinary env arrayBuffer) ;;
  let originalStats := getModelStats document in
  onProgress 20 analyzing ;;;
  onProgress 30 optimizing ;;;
  document <- conservativeMeshOptimization env document settings ;;
  onProgress 50 optimizing ;;;
  onProgress 60 compressing ;;;
  let document := textureStage document settings in
  onProgress 75 compressing ;;;
  document <-
    (if enabled (dracoCompression settings)
     then onProgress 80 compressing ;;;
          safeDracoCompression env document settings
     else ret document) ;;
  onProgress 90 finalizing ;;;
  document <- transform env [dedup; prune] document ;;
  onProgress 95 finalizing ;;;
  optimizedBuffer <- await (io_writeBinary env document) ;;
  (if negb (isValidGLB optimizedBuffer)
   then throw (Err_Error "Optimization resulted in invalid GLB file") else ret tt) ;;;
  let optimizedBlob := optimizedBuffer in
  let optimizedStats := getModelStats document in
  onProgress 100 completed ;;;
  ret {| optimizedBlob := optimizedBlob;
         stats :=
           {| originalSize := file_size file;
              optimizedSize := blob_size optimizedBlob;
              reduction :=
                Math_round
                  (mul (div (sub (file_size file) (blob_size optimizedBlob))
                            (file_size file))
                       (of_Z 100)) |};
         modelInfo := InfoBeforeAfter originalStats optimizedStats |}.

Definition optimizeGLB (env : Collaborators) (file : File)
  (settings : OptimizationSettings) : Async OptimizationResult :=
  try_catch (optimizeGLB_body env file settings)
    (fun error => safeFallbackOptimization file settings).

(** ** The multi-file entry point *)

Definition sum_sizes (textureFiles : list File) : number :=
  fold_left (fun sum f => add sum (file_size f)) textureFiles (of_Z 0).

Definition optimizeGLTFWithTextures_body (env : Collaborators) (gltfFile : File)
  (textureFiles : list File) (settings : OptimizationSettings)
  : Async OptimizationResult :=
  onProgress 10 analyzing ;;;
  let gltfText := string_of_list_byte (file_bytes gltfFile) in
  gltfJson <- await (JSON_parse env gltfText) ;;
  let textureMap := map (fun f => (file_name f, file_bytes f)) textureFiles in
  document <- await (io_readJSON env gltfJson textureMap) ;;
  onProgress 30 optimizing ;;;
  document <- conservativeMeshOptimization env document settings ;;
  onProgress 60 compressing ;;;
  let document := optimizeExternalTextures env document settings in
  document <-
    (if enabled (dracoCompression settings)
     then safeDracoCompression env document settings
     else ret document) ;;
  onProgress 90 finalizing ;;;
  document <- transform env [dedup; prune] document ;;
  optimizedBuffer <- await (io_writeBinary env document) ;;
  let optimizedBlob := optimizedBuffer in
  onProgress 100 completed ;;;
  let total := add (file_size gltfFile) (sum_sizes textureFiles) in
  ret {| optimizedBlob := optimizedBlob;
         stats :=
           {| originalSize := total;
              optimizedSize := blob_size optimizedBlob;
              reduction :=
                Math_round
                  (mul (div (sub total (blob_size optimizedBlob)) total)
                       (of_Z 100)) |};
         modelInfo := InfoSingle (getModelStats document) |}.

(** The [catch] logs and rethrows. *)
Definition optimizeGLTFWithTextures (env : Collaborators) (gltfFile : File)
  (textureFiles : list File) (settings : OptimizationSettings)
  : Async OptimizationResult :=
  try_catch (optimizeGLTFWithTextures_body env gltfFile textureFiles settings)
    (fun error => throw error).

(** ** Auxiliary definitions used in the statements *)

Definition with_level (settings : OptimizationSettings) (l : Z) : OptimizationSettings :=
  {| meshDecimation := meshDecimation settings;
     textureQuality := textureQuality settings;
     dracoCompression :=
       {| enabled := enabled (dracoCompression settings); level := l |};
     wireframeMode := wireframeMode settings |}.

(** A material designates a texture through one of its five slots. *)
Definition references (material : Material) (id : nat) : Prop :=
  getBaseColorTexture material = Some id
  \/ getNormalTexture material = Some id
  \/ getMetallicRoughnessTexture material = Some id
  \/ getOcclusionTexture material = Some id
  \/ getEmissiveTexture material = Some id.

Definition referenced (document : Document) (texture : Texture) : Prop :=
  exists material,
    In material (listMaterials document) /\ references material (tex_id texture).

Definition with_meshes (document : Document) (ms : list Mesh) : Document :=
  {| listScenes := listScenes document;
     listMeshes := ms;
     listMaterials := listMaterials document;
     listTextures := listTextures document;
     listAnimations := listAnimations document |}.

Definition allPrimitives (document : Document) : list Primitive :=
  flat_map listPrimitives (listMeshes document).

Definition hasPosition (primitive : Primitive) : bool :=
  match attr_POSITION primitive with Some _ => true | None => false end.

(** The count the code divides by three for a primitive it counts: the
    index count when there are indices, the vertex count otherwise. *)
Definition triangleBasis (primitive : Primitive) : Z :=
  match getIndices primitive, attr_POSITION primitive with
  | Some indices, _ => getCount indices
  | None, Some position => getCount position
  | None, None => 0
  end.

Definition vertexBasis (primitive : Primitive) : Z :=
  match attr_POSITION primitive with
  | Some position => getCount position
  | None => 0
  end.

(** The triangle count as the specification words it: each primitive
    contributes its own truncated quotient, and the contributions are
    summed. *)
Definition spec_primitive_triangles (primitive : Primitive) : Z :=
  triangleBasis primitive / 3.

Definition sum_Z (l : list Z) : Z := fold_right Z.add 0 l.

Definition spec_total_triangles (document : Document) : Z :=
  sum_Z (map spec_primitive_triangles (allPrimitives document)).

(** Sample documents. *)
Definition unindexed (count : Z) : Primitive :=
  {| attr_POSITION := Some {| getCount := count |}; getIndices := None |}.

Definition indexed (vertexCount indexCount : Z) : Primitive :=
  {| attr_POSITION := Some {| getCount := vertexCount |};
     getIndices := Some {| getCount := indexCount |} |}.

Definition indices_only (indexCount : Z) : Primitive :=
  {| attr_POSITION := None; getIndices := Some {| getCount := indexCount |} |}.

Definition document_of_primitives (ps : list Primitive) : Document :=
  {| listScenes := [ {| scene_name := "Scene" |} ];
     listMeshes := [ {| listPrimitives := ps |} ];
     listMaterials := [];
     listTextures := [];
     listAnimations := [] |}.

(** Sample inputs. *)
Definition glb_header : bytes :=
  [Byte.x67; Byte.x6c; Byte.x54; Byte.x46; Byte.x02; Byte.x00; Byte.x00; Byte.x00].

Definition glb_file : File := {| file_name := "model.glb"; file_bytes := glb_header |}.

Definition default_settings : OptimizationSettings :=
  {| meshDecimation := 30;
     textureQuality := medium;
     dracoCompression := {| enabled := true; level := 5 |};
     wireframeMode := false |}.

Definition empty_document : Document :=
  {| listScenes := []; listMeshes := []; listMaterials := [];
     listTextures := []; listAnimations := [] |}.

(** Collaborators that always succeed and rewrite nothing. *)
Definition env_identity : Collaborators :=
  {| io_readBinary := fun _ => Ok empty_document;
     io_readJSON := fun _ _ => Ok empty_document;
     io_writeBinary := fun _ => Ok glb_header;
     JSON_parse := fun text => Ok {| json_source := text |};
     document_transform := fun _ document => (document, None);
     canvas_getContext := fun _ => true;
     createImageBitmap :=
       fun image _ => Ok {| width := 4096; height := 2048; bitmap_source := image |};
     canvas_toBlob := fun _ _ _ _ => Some [Byte.xff; Byte.xd8; Byte.xff] |}.

(** The same, except that every pass handed to [document.transform]
    throws (for instance the simplifier failing to initialise). *)
Definition env_transform_fails : Collaborators :=
  {| io_readBinary := io_readBinary env_identity;
     io_readJSON := io_readJSON env_identity;
     io_writeBinary := io_writeBinary env_identity;
     JSON_parse := JSON_parse env_identity;
     document_transform :=
       fun _ document => (document, Some (Err_External "meshopt simplifier failed"));
     canvas_getContext := canvas_getContext env_identity;
     createImageBitmap := createImageBitmap env_identity;
     canvas_toBlob := canvas_toBlob env_identity |}.

(** The progress percentages a full single-file run reports, and the ones the
    safe fallback reports. *)
Definition checkpoints (settings : OptimizationSettings) : list Z :=
  [10; 20; 30; 50; 60; 75]
    ++ (if enabled (dracoCompression settings) then [80] else [])
    ++ [90; 95; 100].

Definition fallback_checkpoints : list Z := [25; 50; 75; 100].

(** The document as it reaches each later step of the single-file pipeline,
    [d] being the decoded document and [d1] the document after the geometry
    pass. *)
Definition after_draco (env : Collaborators) (settings : OptimizationSettings)
  (document : Document) : Document :=
  if enabled (dracoCompression settings)
  then fst (document_transform env [draco (dracoOptions settings)] document)
  else document.

(** The ways a step of the single-file pipeline throws, in pipeline order:
    the input fails the format check, the decoder throws, the geometry pass
    throws, the final cleanup throws, the encoder throws, the output fails
    the format check. *)
Inductive StepThrows (env : Collaborators) (file : File)
  (settings : OptimizationSettings) : Prop :=
  | InputRejected :
      isValidGLB (file_bytes file) = false ->
      StepThrows env file settings
  | DecodeThrows (e : Error) :
      io_readBinary env (file_bytes file) = Throw e ->
      StepThrows env file settings
  | GeometryThrows (d d1 : Document) (e : Error) :
      io_readBinary env (file_bytes file) = Ok d ->
      document_transform env (meshTransforms settings) d = (d1, Some e) ->
      StepThrows env file settings
  | CleanupThrows (d d1 d2 : Document) (e : Error) :
      io_readBinary env (file_bytes file) = Ok d ->
      document_transform env (meshTransforms settings) d = (d1, None) ->
      document_transform env [dedup; prune]
        (after_draco env settings (textureStage d1 settings)) = (d2, Some e) ->
      StepThrows env file settings
  | EncodeThrows (d d1 d2 : Document) (e : Error) :
      io_readBinary env (file_bytes file) = Ok d ->
      document_transform env (meshTransforms settings) d = (d1, None) ->
      document_transform env [dedup; prune]
        (after_draco env settings (textureStage d1 settings)) = (d2, None) ->
      io_writeBinary env d2 = Throw e ->
      StepThrows env file settings
  | OutputRejected (d d1 d2 : Document) (out : bytes) :
      io_readBinary env (file_bytes file) = Ok d ->
      document_transform env (meshTransforms settings) d = (d1, None) ->
      document_transform env [dedup; prune]
        (after_draco env settings (textureStage d1 settings)) = (d2, None) ->
      io_writeBinary env d2 = Ok out ->
      isValidGLB out = false ->
      StepThrows env file settings.

Definition png_texture : Texture :=
  {| tex_id := 0%nat;
     getImage := Some [Byte.x89; Byte.x50; Byte.x4e; Byte.x47];
     getMimeType := "image/png" |}.

Definition textured_document : Document :=
  {| listScenes := []; listMeshes := []; listMaterials := [];
     listTextures := [png_texture]; listAnimations := [] |}.

Definition low_settings : OptimizationSettings :=
  {| meshDecimation := 30;
     textureQuality := low;
     dracoCompression := {| enabled := false; level := 5 |};
     wireframeMode := false |}.

(** ** The analysis entry point

    [analyzeGLB] never rejects: when validation or decoding throws, the
    [catch] answers with numbers drawn from [Math.random], here the
    successive values of [random]. *)

Inductive Analysis :=
  | Measured (stats : ModelStats)
  | Fabricated (vertices triangles textures materials meshes : number).

(** [Math.floor(Math.random() * range) + offset] *)
Definition random_count (r : number) (range offset : Z) : number :=
  add (Math_floor (mul r (of_Z range))) (of_Z offset).

Definition analyzeGLB (env : Collaborators) (random : nat -> number) (file : File)
  : Analysis :=
  let arrayBuffer := file_bytes file in
  let attempt :=
    if negb (isValidGLB arrayBuffer) then Throw (Err_Error "Invalid GLB file")
    else
      match io_readBinary env arrayBuffer with
      | Ok document => Ok (getModelStats document)
      | Throw e => Throw e
      end in
  match attempt with
  | Ok stats => Measured stats
  | Throw _ =>
      Fabricated (random_count (random 0%nat) 100000 10000)
                 (random_count (random 1%nat) 50000 5000)
                 (random_count (random 2%nat) 10 1)
                 (random_count (random 3%nat) 5 1)
                 (random_count (random 4%nat) 10 1)
  end.

(** ** The caller: [handleOptimize] of [App.tsx]

    A count shown by the application is a number, the string ['N/A'] of the
    fallback's bundle, or [undefined]. *)

Inductive Count :=
  | CountNumber (n : number)
  | CountNA
  | CountUndefined.

(** Truthiness: of numbers, zero and NaN are falsy; a non-empty string is
    truthy; [undefined] is falsy. *)
Definition truthy (x : number) : bool :=
  match x with
  | S754_zero _ | S754_nan => false
  | _ => true
  end.

Definition count_truthy (c : Count) : bool :=
  match c with
  | CountNumber n => truthy n
  | CountNA => true
  | CountUndefined => false
  end.

(** [c || alternative] *)
Definition count_or (c : Count) (alternative : number) : Count :=
  if count_truthy c then c else CountNumber alternative.

(** [Number(c)], as the subtraction applies it to its operands. *)
Definition ToNumber (c : Count) : number :=
  match c with
  | CountNumber n => n
  | CountNA => S754_nan
  | CountUndefined => S754_nan
  end.

(** [result.modelInfo?.optimized?.triangles] and
    [result.modelInfo?.optimized?.textures]: the bundle of the multi-file
    entry point holds the statistics themselves and has no field
    [optimized]. *)
Definition optimized_triangles (info : ModelInfo) : Count :=
  match info with
  | InfoBeforeAfter _ optimized => CountNumber (triangles optimized)
  | InfoNotAvailable => CountNA
  | InfoSingle _ => CountUndefined
  end.

Definition optimized_textures (info : ModelInfo) : Count :=
  match info with
  | InfoBeforeAfter _ optimized => CountNumber (of_Z (textures optimized))
  | InfoNotAvailable => CountNA
  | InfoSingle _ => CountUndefined
  end.

Record FileData := {
  fd_file : File;
  fd_url : string;
  fd_name : string;
  fd_size : number;
  polyCount : Count;
  textureCount : Count;
  fd_optimizedBlob : option bytes
}.

Record StatsUpdate := {
  polygonsReduced : number;
  texturesOptimized : number;
  sizeSaved : number;
  reductionPercentage : number
}.

Record ProcessingState := {
  isProcessing : bool;
  ps_progress : Z;
  ps_stage : Stage
}.

Definition textureFactor (q : TextureQuality) : number :=
  match q with
  | high => of_Z 1
  | medium => lit 7 10
  | low => lit 4 10
  end.

Definition optimizedFileData (uploadedFile : FileData)
  (settings : OptimizationSettings) (result : OptimizationResult) : FileData :=
  {| fd_file := fd_file uploadedFile;
     fd_url := fd_url uploadedFile;
     fd_name := fd_name uploadedFile;
     fd_size := optimizedSize (stats result);
     polyCount :=
       count_or (optimized_triangles (modelInfo result))
         (Math_floor
            (mul (ToNumber (polyCount uploadedFile))
                 (sub (of_Z 1) (div (of_Z (meshDecimation settings)) (of_Z 100)))));
     textureCount :=
       count_or (optimized_textures (modelInfo result))
         (Math_floor
            (mul (ToNumber (textureCount uploadedFile))
                 (textureFactor (textureQuality settings))));
     fd_optimizedBlob := Some (optimizedBlob result) |}.

Definition statsUpdate (uploadedFile optimized : FileData)
  (result : OptimizationResult) : StatsUpdate :=
  let polygonsReduced :=
    sub (ToNumber (polyCount uploadedFile)) (ToNumber (polyCount optimized)) in
  let texturesOptimized :=
    sub (ToNumber (textureCount uploadedFile)) (ToNumber (textureCount optimized)) in
  let sizeSaved := sub (fd_size uploadedFile) (fd_size optimized) in
  {| polygonsReduced := Math_max (of_Z 0) polygonsReduced;
     texturesOptimized := Math_max (of_Z 0) texturesOptimized;
     sizeSaved := Math_max (of_Z 0) sizeSaved;
     reductionPercentage := reduction (stats result) |}.

Definition error_message (e : Error) : string :=
  match e with
  | Err_Error m | Err_TypeError m | Err_RangeError m | Err_External m => m
  end.

Definition newline : string := String (Ascii.ascii_of_nat 10) EmptyString.

Definition alert_text (errorMessage : string) : string :=
  ("Optimization failed: " ++ errorMessage ++ newline ++ newline
   ++ "Tips:" ++ newline
   ++ "- Try reducing optimization settings" ++ newline
   ++ "- Ensure your GLB file is valid" ++ newline
   ++ "- Check file size (max 500MB)")%string.

(** What one click on "Optimize" leaves behind: nothing without an uploaded
    file; otherwise the optimized file, the result, the statistics handed to
    [updateOptimizationStats] and the final processing state, or the alert
    and the processing state reset to idle. *)
Inductive OptimizeOutcome :=
  | NothingUploaded
  | Optimized (optimized : FileData) (result : OptimizationResult)
      (update : StatsUpdate) (state : ProcessingState)
  | Alerted (text : string) (state : ProcessingState).

Definition handleOptimize (env : Collaborators) (uploadedFile : option FileData)
  (textureFiles : list File) (settings : OptimizationSettings) : OptimizeOutcome :=
  match uploadedFile with
  | None => NothingUploaded
  | Some uploadedFile =>
      let run :=
        if (0 <? Z.of_nat (length textureFiles))
        then optimizeGLTFWithTextures env (fd_file uploadedFile) textureFiles settings []
        else optimizeGLB env (fd_file uploadedFile) settings [] in
      match snd run with
      | Ok result =>
          let optimized := optimizedFileData uploadedFile settings result in
          Optimized optimized result (statsUpdate uploadedFile optimized result)
            {| isProcessing := false; ps_progress := 100; ps_stage := completed |}
      | Throw error =>
          Alerted (alert_text (error_message error))
            {| isProcessing := false; ps_progress := 0; ps_stage := idle |}
      end
  end.

(** ** Display helpers of the panels

    [formatFileSize] (StatsPanel, UserProfile and the history list carry the
    same text): the loop runs while [size >= 1024] and a larger unit is
    left, so at most three times; [toFixed] is the built-in
    [Number.prototype.toFixed]. *)

Definition units : list string := ["B"; "KB"; "MB"; "GB"]%string.

Fixpoint scaleFileSize (fuel : nat) (size : number) (unitIndex : nat)
  : number * nat :=
  match fuel with
  | O => (size, unitIndex)
  | S fuel' =>
      if leb (of_Z 1024) size && Nat.ltb unitIndex (length units - 1)
      then scaleFileSize fuel' (div size (of_Z 1024)) (S unitIndex)
      else (size, unitIndex)
  end.

Definition formatFileSize (toFixed : number -> nat -> string) (bytes : number)
  : string :=
  let '(size, unitIndex) := scaleFileSize (length units - 1) bytes 0 in
  (toFixed size 1%nat ++ " " ++ nth unitIndex units "")%string.

(** [calculateReduction] of StatsPanel, the formula of [stats.reduction]. *)
Definition calculateReduction (original optimized : number) : number :=
  Math_round (mul (div (sub original optimized) original) (of_Z 100)).

(** Settings that differ in one field. *)
Definition with_quality (settings : OptimizationSettings) (q : TextureQuality)
  : OptimizationSettings :=
  {| meshDecimation := meshDecimation settings;
     textureQuality := q;
     dracoCompression := dracoCompression settings;
     wireframeMode := wireframeMode settings |}.

Definition with_wireframe (settings : OptimizationSettings) (w : bool)
  : OptimizationSettings :=
  {| meshDecimation := meshDecimation settings;
     textureQuality := textureQuality settings;
     dracoCompression := dracoCompression settings;
     wireframeMode := w |}.

Definition with_decimation (settings : OptimizationSettings) (md : Z)
  : OptimizationSettings :=
  {| meshDecimation := md;
     textureQuality := textureQuality settings;
     dracoCompression := dracoCompression settings;
     wireframeMode := wireframeMode settings |}.

(** * Properties *)

(** ** The format validator *)

Lemma byte_value_range (b : Byte.byte) : 0 <= Z.of_N (Byte.to_N b) < 256.
Proof. destruct b; vm_compute; split; congruence. Qed.

Lemma land_shiftl_disjoint (a b n : Z) :
  0 <= n -> 0 <= a < 2 ^ n -> Z.land a (Z.shiftl b n) = 0.
Proof.
  intros Hn Ha. apply Z.bits_inj'. intros i Hi.
  rewrite Z.land_spec, Z.bits_0.
  destruct (Z.lt_ge_cases i n) as [Hlt | Hge].
  - rewrite (Z.shiftl_spec_low b n i Hlt). apply andb_false_r.
  - destruct (Z.eq_dec a 0) as [-> | Hne].
    + now rewrite Z.bits_0.
    + assert (Hpow : 2 ^ n <= 2 ^ i) by (apply Z.pow_le_mono_r; lia).
      rewrite Z.bits_above_log2; [reflexivity | lia |].
      apply Z.log2_lt_pow2; lia.
Qed.

Lemma lor_shiftl_add (a b n : Z) :
  0 <= n -> 0 <= a < 2 ^ n -> Z.lor a (Z.shiftl b n) = a + b * 2 ^ n.
Proof.
  intros Hn Ha.
  pose proof (Z.add_lor_land a (Z.shiftl b n)) as H.
  rewrite (land_shiftl_disjoint a b n Hn Ha), Z.add_0_r in H.
  rewrite H, Z.shiftl_mul_pow2 by assumption. reflexivity.
Qed.

Lemma le32_lor_add (v0 v1 v2 v3 : Z) :
  0 <= v0 < 256 -> 0 <= v1 < 256 -> 0 <= v2 < 256 -> 0 <= v3 < 256 ->
  Z.lor v0 (Z.lor (Z.shiftl v1 8) (Z.lor (Z.shiftl v2 16) (Z.shiftl v3 24)))
  = v0 + 2 ^ 8 * v1 + 2 ^ 16 * v2 + 2 ^ 24 * v3.
Proof.
  intros H0 H1 H2 H3.
  assert (E3 : Z.shiftl v3 24 = Z.shiftl (Z.shiftl v3 8) 16)
    by (rewrite Z.shiftl_shiftl by lia; reflexivity).
  rewrite E3, <- Z.shiftl_lor.
  rewrite (lor_shiftl_add v2 v3 8) by lia.
  set (A := v2 + v3 * 2 ^ 8).
  assert (HA : 0 <= A < 2 ^ 16) by (unfold A; lia).
  assert (E2 : Z.shiftl A 16 = Z.shiftl (Z.shiftl A 8) 8)
    by (rewrite Z.shiftl_shiftl by lia; reflexivity).
  rewrite E2, <- Z.shiftl_lor.
  rewrite (lor_shiftl_add v1 A 8) by lia.
  set (B := v1 + A * 2 ^ 8).
  assert (HB : 0 <= B < 2 ^ 24) by (unfold B; lia).
  rewrite (lor_shiftl_add v0 B 8) by lia.
  unfold B, A. lia.
Qed.

Lemma getUint32_le_value (b0 b1 b2 b3 : Byte.byte) (rest : bytes) :
  getUint32_le (b0 :: b1 :: b2 :: b3 :: rest) 0 =
  Ok (Z.of_N (Byte.to_N b0) + 2 ^ 8 * Z.of_N (Byte.to_N b1)
      + 2 ^ 16 * Z.of_N (Byte.to_N b2) + 2 ^ 24 * Z.of_N (Byte.to_N b3)).
Proof.
  unfold getUint32_le. cbn [skipn]. f_equal.
  apply le32_lor_add; apply byte_value_range.
Qed.

Lemma getUint32_le_short (buffer : bytes) :
  (length buffer < 4)%nat ->
  exists e, getUint32_le buffer 0 = Throw e.
Proof.
  intros H. unfold getUint32_le. cbn [skipn].
  destruct buffer as [|b0 [|b1 [|b2 [|b3 rest]]]]; cbn in H; try lia; eauto.
Qed.

(** C9. The format validator is a total boolean function: it answers [true]
    exactly when the buffer holds at least four bytes and the first four,
    read as a little-endian 32-bit integer, are the magic 0x46546C67; a
    buffer shorter than four bytes, where [getUint32] throws, is answered
    with [false], as is any other magic. *)
Theorem isValidGLB_magic (buffer : bytes) :
  (isValidGLB buffer = true <->
     exists b0 b1 b2 b3 rest,
       buffer = b0 :: b1 :: b2 :: b3 :: rest /\
       Z.of_N (Byte.to_N b0) + 2 ^ 8 * Z.of_N (Byte.to_N b1)
       + 2 ^ 16 * Z.of_N (Byte.to_N b2) + 2 ^ 24 * Z.of_N (Byte.to_N b3)
       = 0x46546C67)
  /\ ((length buffer < 4)%nat ->
      (exists e, getUint32_le buffer 0 = Throw e) /\ isValidGLB buffer = false)
  /\ (isValidGLB buffer = true \/ isValidGLB buffer = false).
Proof.
  split; [| split].
  - split.
    + intros Hv.
      destruct buffer as [|b0 [|b1 [|b2 [|b3 rest]]]];
        try (unfold isValidGLB, getUint32_le in Hv; cbn [skipn] in Hv; discriminate).
      exists b0, b1, b2, b3, rest. split; [reflexivity |].
      unfold isValidGLB in Hv. rewrite getUint32_le_value in Hv.
      apply Z.eqb_eq in Hv. exact Hv.
    + intros (b0 & b1 & b2 & b3 & rest & -> & Hm).
      unfold isValidGLB. rewrite getUint32_le_value.
      apply Z.eqb_eq. exact Hm.
  - intros Hlen. unfold isValidGLB.
    destruct (getUint32_le_short buffer Hlen) as [e He]. rewrite He. eauto.
  - destruct (isValidGLB buffer); auto.
Qed.

(** ** The geometry compression pass *)

Lemma dracoOptions_with_level (settings : OptimizationSettings) (l : Z) :
  dracoOptions (with_level settings l) =
  {| quantizePosition := Z.max 10 (16 - Z.min l 7);
     quantizeNormal := Z.max 8 (16 - Z.min l 7);
     quantizeTexcoord := Z.max 10 (16 - Z.min l 7);
     quantizeColor := Z.max 8 (16 - Z.min l 7);
     quantizeGeneric := Z.max 8 (16 - Z.min l 7) |}.
Proof. reflexivity. Qed.

Lemma dracoOptions_saturates (settings : OptimizationSettings) (l : Z) :
  7 <= l -> dracoOptions (with_level settings l) = dracoOptions (with_level settings 7).
Proof.
  intros Hl. rewrite !dracoOptions_with_level.
  replace (Z.min l 7) with 7 by lia. reflexivity.
Qed.

(** C7. A requested Draco level of 9 or of 10 gives the pass the same
    quantization bit depths as level 7, on every document, so the pass
    behaves the same; the depths are [max 10 (16 - e)] for positions and
    texture coordinates and [max 8 (16 - e)] for normals, colours and
    generic attributes, [e] being the requested level capped at 7. *)
Theorem draco_level_clamp (env : Collaborators) (document : Document)
  (settings : OptimizationSettings) :
  (forall l : Z,
     dracoOptions (with_level settings l) =
     let e := Z.min l 7 in
     {| quantizePosition := Z.max 10 (16 - e);
        quantizeNormal := Z.max 8 (16 - e);
        quantizeTexcoord := Z.max 10 (16 - e);
        quantizeColor := Z.max 8 (16 - e);
        quantizeGeneric := Z.max 8 (16 - e) |})
  /\ dracoOptions (with_level settings 9) = dracoOptions (with_level settings 7)
  /\ dracoOptions (with_level settings 10) = dracoOptions (with_level settings 7)
  /\ safeDracoCompression env document (with_level settings 9)
     = safeDracoCompression env document (with_level settings 7)
  /\ safeDracoCompression env document (with_level settings 10)
     = safeDracoCompression env document (with_level settings 7).
Proof.
  assert (H9 := dracoOptions_saturates settings 9 ltac:(lia)).
  assert (H10 := dracoOptions_saturates settings 10 ltac:(lia)).
  split; [intros l; apply dracoOptions_with_level |].
  split; [exact H9 |]. split; [exact H10 |].
  unfold safeDracoCompression. rewrite H9, H10. split; reflexivity.
Qed.

(** ** The geometry pass *)




(** ** The embedded-safe texture pass *)

Section DeadTextures.

Implicit Types (used : gset nat) (material : Material) (document : Document).

Lemma elem_of_addTexture (slot : option nat) used (id : nat) :
  id ∈ addTexture slot used <-> id ∈ used \/ slot = Some id.
Proof.
  destruct slot as [t|]; cbn.
  - rewrite elem_of_union, elem_of_singleton. split.
    + intros [H | ->]; auto.
    + intros [H | [= ->]]; auto.
  - split; [auto | intros [H | H]; [exact H | discriminate]].
Qed.

Lemma elem_of_markMaterial used material (id : nat) :
  id ∈ markMaterial used material <-> id ∈ used \/ references material id.
Proof.
  unfold markMaterial, references. rewrite !elem_of_addTexture. tauto.
Qed.

Lemma elem_of_usedTextures (materials : list Material) used (id : nat) :
  id ∈ fold_left markMaterial materials used
  <-> id ∈ used \/ exists material, In material materials /\ references material id.
Proof.
  revert used. induction materials as [|m ms IH]; intros used; cbn [fold_left].
  - split; [auto | intros [H | (m & [] & _)]; exact H].
  - rewrite IH, elem_of_markMaterial. split.
    + intros [[H | H] | (m' & Hin & Href)]; eauto.
      * right. exists m. split; [now left | exact H].
      * right. exists m'. split; [now right | exact Href].
    + intros [H | (m' & [<- | Hin] & Href)]; eauto.
Qed.

Lemma clearSlot_other (id : nat) (slot : option nat) :
  slot <> Some id -> clearSlot id slot = slot.
Proof.
  destruct slot as [t|]; cbn; [| reflexivity].
  intros Hne. destruct (decide (t = id)) as [-> | _]; [congruence | reflexivity].
Qed.

Lemma dispose_unreferenced (texture : Texture) document :
  ~ referenced document texture ->
  listMaterials (dispose texture document) = listMaterials document.
Proof.
  intros Hnot. unfold dispose. cbn [listMaterials].
  rewrite <- (map_id (listMaterials document)) at 2.
  apply map_ext_in. intros m Hin.
  assert (Hm : ~ references m (tex_id texture)).
  { intros Href. apply Hnot. exists m. auto. }
  unfold references in Hm.
  rewrite !clearSlot_other by tauto. destruct m; reflexivity.
Qed.

(** The sweep over a list [ts] of textures, from any document that still has
    the materials the marking was computed from. *)
Lemma sweep_textures (materials : list Material) used (ts : list Texture) :
  (forall id, id ∈ used <->
     exists material, In material materials /\ references material id) ->
  forall document,
    listMaterials document = materials ->
    let document' :=
      fold_left
        (fun document texture =>
           if decide (tex_id texture ∈ used) then document
           else dispose texture document)
        ts document in
    listMaterials document' = materials
    /\ listScenes document' = listScenes document
    /\ listMeshes document' = listMeshes document
    /\ listAnimations document' = listAnimations document
    /\ listTextures document' =
       List.filter
         (fun t => forallb (fun u => bool_decide (tex_id u ∈ used)
                                     || negb (Nat.eqb (tex_id t) (tex_id u))) ts)
         (listTextures document).
Proof.
  intros Hused. induction ts as [|u ts IH]; intros document Hmat; cbn [fold_left forallb].
  - repeat split; try assumption.
    induction (listTextures document) as [|t l IHl]; cbn [List.filter];
      [reflexivity | now rewrite <- IHl].
  - destruct (decide (tex_id u ∈ used)) as [Hin | Hout].
    + destruct (IH document Hmat) as (H1 & H2 & H3 & H4 & H5).
      repeat split; try assumption. rewrite H5.
      apply filter_ext. intros t. rewrite (bool_decide_eq_true_2 _ Hin). reflexivity.
    + assert (Hnot : ~ referenced document u).
      { intros (m & Hm & Href). apply Hout, Hused. exists m.
        rewrite <- Hmat. auto. }
      pose proof (dispose_unreferenced u document Hnot) as Hd.
      destruct (IH (dispose u document) (eq_trans Hd Hmat)) as (H1 & H2 & H3 & H4 & H5).
      repeat split; try assumption. rewrite H5.
      cbn [dispose listTextures]. rewrite (bool_decide_eq_false_2 _ Hout).
      cbn [orb]. clear.
      induction (listTextures document) as [|t l IHl]; cbn [List.filter]; [reflexivity |].
      destruct (negb (Nat.eqb (tex_id t) (tex_id u))) eqn:E; cbn [List.filter andb].
      * rewrite IHl. reflexivity.
      * exact IHl.
Qed.

End DeadTextures.

Lemma safeTextureOptimization_textures (document : Document)
  (settings : OptimizationSettings) :
  let used := fold_left markMaterial (listMaterials document) ∅ in
  listTextures (safeTextureOptimization document settings)
  = List.filter (fun t => bool_decide (tex_id t ∈ used)) (listTextures document)
  /\ listMaterials (safeTextureOptimization document settings) = listMaterials document
  /\ listScenes (safeTextureOptimization document settings) = listScenes document
  /\ listMeshes (safeTextureOptimization document settings) = listMeshes document
  /\ listAnimations (safeTextureOptimization document settings)
     = listAnimations document.
Proof.
  intros used.
  assert (Hused : forall id, id ∈ used <->
            exists material,
              In material (listMaterials document) /\ references material id).
  { intros id. unfold used. rewrite elem_of_usedTextures.
    split; [intros [Hemp | Href] | intros Href]; auto.
    exfalso. exact (not_elem_of_empty (C := gset nat) _ Hemp). }
  destruct (sweep_textures (listMaterials document) used (listTextures document)
              Hused document eq_refl) as (H1 & H2 & H3 & H4 & H5).
  unfold safeTextureOptimization. fold used.
  repeat split; try assumption.
  rewrite H5. apply filter_ext_in. intros t Ht.
  destruct (bool_decide (tex_id t ∈ used)) eqn:E.
  - apply forallb_forall. intros u _.
    destruct (Nat.eqb (tex_id t) (tex_id u)) eqn:Eid; [| apply orb_true_r].
    apply Nat.eqb_eq in Eid. rewrite <- Eid, E. reflexivity.
  - apply not_true_is_false. intros Hall.
    rewrite forallb_forall in Hall. specialize (Hall t Ht).
    rewrite E, Nat.eqb_refl in Hall. discriminate.
Qed.

(** C6. In the single-file pipeline the embedded-safe texture strategy runs
    only when [textureQuality] is not [high]; when it has run, the textures
    left in the document are exactly the textures of the input document that
    some material designates through one of its five slots, each as it was
    (identity, bytes and MIME type), in their order; every other texture is
    gone, and nothing else in the document has changed. *)
Theorem safeTextureOptimization_prunes (document : Document)
  (settings : OptimizationSettings) :
  textureStage document settings
  = (if decide (textureQuality settings = high) then document
     else safeTextureOptimization document settings)
  /\ (forall texture,
        In texture (listTextures (safeTextureOptimization document settings))
        <-> In texture (listTextures document) /\ referenced document texture)
  /\ (exists keep,
        (forall texture, keep texture = true <-> referenced document texture)
        /\ listTextures (safeTextureOptimization document settings)
           = List.filter keep (listTextures document))
  /\ listMaterials (safeTextureOptimization document settings)
     = listMaterials document
  /\ listMeshes (safeTextureOptimization document settings) = listMeshes document.
Proof.
  destruct (safeTextureOptimization_textures document settings)
    as (HT & HM & _ & HMe & _).
  split; [| split; [| split; [| split]]]; try assumption.
  - unfold textureStage.
    destruct (decide (textureQuality settings = high)) as [E | E];
      destruct (decide (textureQuality settings <> high)); tauto.
  - intros texture. rewrite HT, filter_In, bool_decide_eq_true.
    rewrite elem_of_usedTextures. unfold referenced.
    split; [intros [Hin [Hemp | Href]] | intros [Hin Href]]; auto.
    exfalso. exact (not_elem_of_empty (C := gset nat) _ Hemp).
  - eexists. split; [| exact HT].
    intros texture. cbn beta. rewrite bool_decide_eq_true, elem_of_usedTextures.
    unfold referenced.
    split; [intros [Hemp | Href] | intros Href]; auto.
    exfalso. exact (not_elem_of_empty (C := gset nat) _ Hemp).
Qed.

(** ** The model inspector *)

Lemma fold_countMesh_flat (ms : list Mesh) (acc : number * number) :
  fold_left countMesh ms acc
  = fold_left countPrimitive (flat_map listPrimitives ms) acc.
Proof.
  revert acc. induction ms as [|m ms IH]; intros acc; cbn [fold_left flat_map].
  - reflexivity.
  - rewrite fold_left_app, IH. reflexivity.
Qed.

Lemma countPrimitive_positionless (acc : number * number) (p : Primitive) :
  attr_POSITION p = None -> countPrimitive acc p = acc.
Proof. intros H. unfold countPrimitive. rewrite H. now destruct acc. Qed.

Lemma countPrimitive_counted (v t : number) (p : Primitive) :
  hasPosition p = true ->
  countPrimitive (v, t) p
  = (add v (of_Z (vertexBasis p)), add t (div (of_Z (triangleBasis p)) (of_Z 3))).
Proof.
  unfold hasPosition, countPrimitive, vertexBasis, triangleBasis.
  destruct (attr_POSITION p) as [pos|]; [intros _ | discriminate].
  destruct (getIndices p); reflexivity.
Qed.

Lemma fold_countPrimitive (ps : list Primitive) (v t : number) :
  fold_left countPrimitive ps (v, t)
  = (fold_left add (map (fun p => of_Z (vertexBasis p)) (List.filter hasPosition ps)) v,
     fold_left add
       (map (fun p => div (of_Z (triangleBasis p)) (of_Z 3)) (List.filter hasPosition ps)) t).
Proof.
  revert v t. induction ps as [|p ps IH]; intros v t; cbn [fold_left List.filter map].
  - reflexivity.
  - destruct (hasPosition p) eqn:Hp.
    + rewrite (countPrimitive_counted v t p Hp), IH. reflexivity.
    + rewrite countPrimitive_positionless, IH; [reflexivity |].
      unfold hasPosition in Hp. now destruct (attr_POSITION p).
Qed.

Lemma getModelStats_totals (document : Document) :
  vertices (getModelStats document)
  = fold_left add
      (map (fun p => of_Z (vertexBasis p))
           (List.filter hasPosition (allPrimitives document))) (of_Z 0)
  /\ triangles (getModelStats document)
     = Math_floor
         (fold_left add
            (map (fun p => div (of_Z (triangleBasis p)) (of_Z 3))
                 (List.filter hasPosition (allPrimitives document))) (of_Z 0)).
Proof.
  unfold getModelStats, allPrimitives.
  rewrite fold_countMesh_flat, fold_countPrimitive. split; reflexivity.
Qed.

(** C10. A primitive without a POSITION attribute adds nothing to the vertex
    total nor to the triangle total, whether or not it has an index
    accessor: the statistics of a document are those of the same document
    with that primitive taken out of its mesh. *)
Theorem getModelStats_skips_positionless (document : Document)
  (ms1 ms2 : list Mesh) (ps1 ps2 : list Primitive) (p : Primitive) :
  attr_POSITION p = None ->
  listMeshes document
  = ms1 ++ {| listPrimitives := ps1 ++ p :: ps2 |} :: ms2 ->
  (forall acc, countPrimitive acc p = acc)
  /\ vertices (getModelStats document)
     = vertices (getModelStats
         (with_meshes document (ms1 ++ {| listPrimitives := ps1 ++ ps2 |} :: ms2)))
  /\ triangles (getModelStats document)
     = triangles (getModelStats
         (with_meshes document (ms1 ++ {| listPrimitives := ps1 ++ ps2 |} :: ms2))).
Proof.
  intros Hp Hms.
  assert (Hflat :
    List.filter hasPosition (allPrimitives document)
    = List.filter hasPosition
        (allPrimitives
           (with_meshes document (ms1 ++ {| listPrimitives := ps1 ++ ps2 |} :: ms2)))).
  { unfold allPrimitives. cbn [with_meshes listMeshes]. rewrite Hms.
    rewrite !flat_map_app. cbn [flat_map listPrimitives].
    rewrite !List.filter_app. cbn [List.filter].
    unfold hasPosition at 3. rewrite Hp. reflexivity. }
  split; [intros acc; now apply countPrimitive_positionless |].
  destruct (getModelStats_totals document) as [-> ->].
  destruct (getModelStats_totals
    (with_meshes document (ms1 ++ {| listPrimitives := ps1 ++ ps2 |} :: ms2)))
    as [-> ->].
  rewrite Hflat. split; reflexivity.
Qed.

Lemma getModelStats_skips_positionless_witness :
  triangles (getModelStats
    (document_of_primitives [indexed 4 6; indices_only 300; unindexed 3]))
  = triangles (getModelStats (document_of_primitives [indexed 4 6; unindexed 3]))
  /\ triangles (getModelStats
       (document_of_primitives [indexed 4 6; indices_only 300; unindexed 3]))
     = of_Z 3.
Proof.
  split; [| vm_compute; reflexivity].
  refine (proj2 (proj2 (getModelStats_skips_positionless
    (document_of_primitives [indexed 4 6; indices_only 300; unindexed 3])
    [] [] [indexed 4 6] [unindexed 3] (indices_only 300) _ _)));
  reflexivity.
Defined.

(** ** The orchestrator *)

Lemma conservativeMeshOptimization_transform (env : Collaborators)
  (document : Document) (settings : OptimizationSettings) :
  conservativeMeshOptimization env document settings
  = transform env (meshTransforms settings) document.
Proof.
  unfold conservativeMeshOptimization, meshTransforms.
  destruct ((0 <? meshDecimation settings) && (meshDecimation settings <? 80));
    reflexivity.
Qed.

Lemma safeDracoCompression_run (env : Collaborators) (document : Document)
  (settings : OptimizationSettings) (log : list ProgressEvent) :
  safeDracoCompression env document settings log
  = (log, Ok (fst (document_transform env [draco (dracoOptions settings)] document))).
Proof.
  unfold safeDracoCompression.
  destruct (document_transform env [draco (dracoOptions settings)] document)
    as [d [e|]]; reflexivity.
Qed.

Lemma safeFallbackOptimization_run (file : File) (settings : OptimizationSettings)
  (log : list ProgressEvent) :
  exists r,
    safeFallbackOptimization file settings log
    = (log ++ [ {| percent := 25; stage := analyzing |};
                {| percent := 50; stage := optimizing |};
                {| percent := 75; stage := compressing |};
                {| percent := 100; stage := finalizing |} ], Ok r)
    /\ optimizedBlob r = file_bytes file
    /\ originalSize (stats r) = file_size file
    /\ optimizedSize (stats r)
       = Math_floor (mul (file_size file) (reductionFactor settings))
    /\ modelInfo r = InfoNotAvailable.
Proof.
  eexists. unfold safeFallbackOptimization, bind, onProgress, ret.
  rewrite <- !app_assoc. cbn [app]. repeat split; reflexivity.
Qed.

Ltac run_async :=
  cbv [optimizeGLB_body optimizeGLTFWithTextures_body bind ret throw await
       onProgress negb].

Ltac step_async :=
  rewrite ?conservativeMeshOptimization_transform, ?safeDracoCompression_run;
  cbv beta iota delta [transform ret throw]; cbn [fst snd].

Ltac use_outcomes :=
  repeat match goal with
         | H : ?x = _ |- context [?x] => rewrite H
         end.

Ltac case_step :=
  match goal with
  | |- context [isValidGLB ?b] => destruct (isValidGLB b) eqn:?
  | |- context [io_readBinary ?env ?b] => destruct (io_readBinary env b) eqn:?
  | |- context [io_writeBinary ?env ?d] => destruct (io_writeBinary env d) eqn:?
  | |- context [document_transform ?env (meshTransforms ?s) ?d] =>
      destruct (document_transform env (meshTransforms s) d) as [? [?|]] eqn:?
  | |- context [document_transform ?env [dedup; prune] ?d] =>
      destruct (document_transform env [dedup; prune] d) as [? [?|]] eqn:?
  | |- context [enabled ?d] => destruct (enabled d) eqn:?
  | |- context [JSON_parse ?env ?t] => destruct (JSON_parse env t) eqn:?
  | |- context [io_readJSON ?env ?j ?m] => destruct (io_readJSON env j m) eqn:?
  end.

Lemma optimizeGLB_body_progress (env : Collaborators) (file : File)
  (settings : OptimizationSettings) :
  let run := optimizeGLB_body env file settings [] in
  match snd run with
  | Ok _ => map percent (fst run) = checkpoints settings
  | Throw _ =>
      (map percent (fst run) = [10]
       /\ (isValidGLB (file_bytes file) = false
           \/ exists e, io_readBinary env (file_bytes file) = Throw e))
      \/ (isValidGLB (file_bytes file) = true
          /\ (exists d, io_readBinary env (file_bytes file) = Ok d)
          /\ exists rest,
               map percent (fst run) = [10; 20; 30] ++ rest
               /\ StronglySorted Z.le ([10; 20; 30] ++ rest))
  end.
Proof.
  cbv zeta. unfold checkpoints. run_async.
  step_async. repeat (case_step; step_async);
    cbn [map app percent];
    try reflexivity;
    try (left; split; [reflexivity | eauto]; fail);
    right; (split; [reflexivity | split; [eauto |]]);
    eexists; (split; [reflexivity |]);
    repeat constructor; lia.
Qed.

(** ** Binary64 arithmetic

    What the proofs below need of the rounding performed by the binary64
    operations: shifting a mantissa to the right and rounding it to nearest
    never goes above an integer bound that the exact value respects. *)

Lemma digits2_pos_log2 (p : positive) :
  Zpos (digits2_pos p) = Z.log2 (Zpos p) + 1.
Proof.
  assert (H : forall q, digits2_pos q = Pos.size q)
    by (induction q as [q IH | q IH |]; cbn; congruence).
  rewrite H. destruct p; cbn [Z.log2 Pos.size]; lia.
Qed.

Lemma digits2_pos_bounds (p : positive) :
  2 ^ (Zpos (digits2_pos p) - 1) <= Zpos p < 2 ^ Zpos (digits2_pos p).
Proof.
  rewrite digits2_pos_log2.
  pose proof (Z.log2_spec (Zpos p) ltac:(lia)) as H.
  replace (Z.log2 (Zpos p) + 1 - 1) with (Z.log2 (Zpos p)) by lia.
  exact H.
Qed.

Lemma digits2_pos_unique (p : positive) (d : Z) :
  2 ^ (d - 1) <= Zpos p < 2 ^ d -> Zpos (digits2_pos p) = d.
Proof.
  intros [Hlo Hhi]. rewrite digits2_pos_log2.
  assert (Hd : 0 < d).
  { destruct (Z.lt_ge_cases 0 d) as [H | H]; [exact H | exfalso].
    destruct (Z.eq_dec d 0) as [-> | Hne]; [cbn in Hhi; lia |].
    rewrite Z.pow_neg_r in Hhi by lia. lia. }
  rewrite (Z.log2_unique (Zpos p) (d - 1)); [lia | lia |].
  replace (Z.succ (d - 1)) with d by lia. auto.
Qed.

Lemma iter_pos_nat {A : Type} (f : A -> A) (p : positive) (x : A) :
  SpecFloat.iter_pos f p x = Nat.iter (Pos.to_nat p) f x.
Proof.
  revert x. induction p as [p IH | p IH |]; intros x; cbn [SpecFloat.iter_pos].
  - rewrite !IH, Pos2Nat.inj_xI.
    replace (S (2 * Pos.to_nat p)) with (Pos.to_nat p + (Pos.to_nat p + 1))%nat by lia.
    rewrite !Nat.iter_add. reflexivity.
  - rewrite !IH, Pos2Nat.inj_xO.
    replace (2 * Pos.to_nat p)%nat with (Pos.to_nat p + Pos.to_nat p)%nat by lia.
    rewrite Nat.iter_add. reflexivity.
  - reflexivity.
Qed.

Lemma shr_1_nonneg (m : Z) (r s : bool) :
  0 <= m ->
  shr_1 {| shr_m := m; shr_r := r; shr_s := s |}
  = {| shr_m := m / 2; shr_r := Z.odd m; shr_s := r || s |}.
Proof.
  intros H. rewrite <- Z.div2_div.
  destruct m as [|[p|p|]|p]; try lia; reflexivity.
Qed.

Lemma shr_iter (k : nat) (m : Z) :
  0 <= m ->
  let mrs := Nat.iter k shr_1 {| shr_m := m; shr_r := false; shr_s := false |} in
  shr_m mrs = m / 2 ^ Z.of_nat k
  /\ (m mod 2 ^ Z.of_nat k = 0 -> shr_r mrs = false /\ shr_s mrs = false).
Proof.
  intros Hm. induction k as [|k IH].
  - cbn. rewrite Z.div_1_r. auto.
  - cbv zeta in IH |- *. rewrite Nat.iter_succ.
    destruct (Nat.iter k shr_1 {| shr_m := m; shr_r := false; shr_s := false |})
      as [q r s]. cbn [shr_m shr_r shr_s] in IH. destruct IH as [-> IHe].
    assert (HP : 0 < 2 ^ Z.of_nat k) by (apply Z.pow_pos_nonneg; lia).
    rewrite shr_1_nonneg by (apply Z.div_pos; lia). cbn [shr_m shr_r shr_s].
    rewrite Nat2Z.inj_succ, Z.pow_succ_r by lia. split.
    + rewrite Z.div_div by lia. f_equal. lia.
    + intros Hmod.
      apply Z.div_exact in Hmod; [| lia].
      set (c := m / (2 * 2 ^ Z.of_nat k)) in Hmod.
      assert (Hm2 : m = (2 * c) * 2 ^ Z.of_nat k) by lia.
      assert (Hk : m mod 2 ^ Z.of_nat k = 0)
        by (rewrite Hm2; apply Z.mod_mul; lia).
      destruct (IHe Hk) as [-> ->].
      rewrite Hm2 at 1. rewrite Z.div_mul by lia.
      rewrite Z.odd_mul. split; reflexivity.
Qed.

Lemma round_nearest_even_range (q : Z) (l : location) :
  q <= round_nearest_even q l <= q + 1.
Proof.
  destruct l as [|[| |]]; cbn [round_nearest_even]; try lia.
  destruct (Z.even q); lia.
Qed.

(** Shifting [m] right by [k] bits and rounding to nearest stays below every
    integer [K] with [m <= K * 2 ^ k]. *)
Lemma round_shr_upper (k : nat) (m K : Z) :
  0 <= m -> m <= K * 2 ^ Z.of_nat k ->
  let mrs := Nat.iter k shr_1 {| shr_m := m; shr_r := false; shr_s := false |} in
  m / 2 ^ Z.of_nat k
  <= round_nearest_even (shr_m mrs) (loc_of_shr_record mrs)
  <= Z.min K (m / 2 ^ Z.of_nat k + 1).
Proof.
  intros Hm HK. cbv zeta.
  destruct (shr_iter k m Hm) as [Hq Hex].
  assert (HP : 0 < 2 ^ Z.of_nat k) by (apply Z.pow_pos_nonneg; lia).
  destruct (Nat.iter k shr_1 {| shr_m := m; shr_r := false; shr_s := false |})
    as [q r s]. cbn [shr_m shr_r shr_s] in *. subst q.
  pose proof (round_nearest_even_range (m / 2 ^ Z.of_nat k)
                (loc_of_shr_record {| shr_m := m / 2 ^ Z.of_nat k; shr_r := r; shr_s := s |}))
    as Hr.
  split; [lia |]. apply Z.min_glb; [| lia].
  pose proof (Z.div_mod m (2 ^ Z.of_nat k) ltac:(lia)) as Hdm.
  pose proof (Z.mod_pos_bound m (2 ^ Z.of_nat k) HP) as Hb.
  destruct (Z.eq_dec (m mod 2 ^ Z.of_nat k) 0) as [Hz | Hnz].
  - destruct (Hex Hz) as [-> ->]. cbn [loc_of_shr_record round_nearest_even].
    apply Z.div_le_upper_bound; lia.
  - assert (m / 2 ^ Z.of_nat k < K); [| lia].
    apply Z.div_lt_upper_bound; [lia |].
    destruct (Z.eq_dec m (K * 2 ^ Z.of_nat k)) as [E | E]; [| lia].
    exfalso. apply Hnz. rewrite E. apply Z.mod_mul. lia.
Qed.

Lemma shr_fexp_none (m : positive) (e : Z) (l : location) :
  fexp prec emax (Zpos (digits2_pos m) + e) - e <= 0 ->
  shr_fexp prec emax (Zpos m) e l = (shr_record_of_loc (Zpos m) l, e).
Proof.
  intros H. unfold shr_fexp, shr. cbn [Zdigits2].
  destruct (fexp prec emax (Zpos (digits2_pos m) + e) - e); try reflexivity. lia.
Qed.

Lemma shr_fexp_some (m : positive) (e : Z) (k : nat) :
  fexp prec emax (Zpos (digits2_pos m) + e) - e = Z.of_nat k -> (0 < k)%nat ->
  shr_fexp prec emax (Zpos m) e loc_Exact
  = (Nat.iter k shr_1 {| shr_m := Zpos m; shr_r := false; shr_s := false |},
     e + Z.of_nat k).
Proof.
  intros H Hk. unfold shr_fexp, shr. cbn [Zdigits2 shr_record_of_loc]. rewrite H.
  destruct (Z.of_nat k) as [|p|p] eqn:E; try lia.
  rewrite iter_pos_nat. f_equal. f_equal. lia.
Qed.

Lemma pos_iter_xO (p k : positive) : Zpos (Pos.iter xO p k) = Zpos p * 2 ^ Zpos k.
Proof.
  induction k as [|k IH] using Pos.peano_ind.
  - cbn [Pos.iter]. rewrite Pos2Z.inj_xO. lia.
  - rewrite Pos.iter_succ, Pos2Z.inj_xO, IH, Pos2Z.inj_succ, Z.pow_succ_r by lia. lia.
Qed.

Lemma shl_align_spec (mx : positive) (ex ex' : Z) :
  ex' <= ex ->
  snd (shl_align mx ex ex') = ex'
  /\ Zpos (fst (shl_align mx ex ex')) = Zpos mx * 2 ^ (ex - ex').
Proof.
  intros H. unfold shl_align.
  destruct (ex' - ex) as [|d|d] eqn:E; cbn [fst snd]; try lia.
  - split; [lia |]. replace (ex - ex') with 0 by lia. lia.
  - split; [reflexivity |]. rewrite pos_iter_xO. f_equal. f_equal. lia.
Qed.

Lemma binary_round_aux_exact (m : positive) (e : Z) :
  Zpos (digits2_pos m) = 53 -> -1074 <= e <= 971 ->
  binary_round_aux prec emax false (Zpos m) e loc_Exact = S754_finite false m e.
Proof.
  intros Hd He. unfold binary_round_aux.
  assert (Hf : fexp prec emax (Zpos (digits2_pos m) + e) - e <= 0).
  { rewrite Hd. unfold fexp, SpecFloat.emin, prec, emax. lia. }
  rewrite (shr_fexp_none m e loc_Exact Hf).
  cbn [shr_record_of_loc shr_m loc_of_shr_record round_nearest_even].
  rewrite (shr_fexp_none m e loc_Exact Hf). cbn [shr_record_of_loc shr_m].
  unfold prec, emax. destruct (Z.leb_spec e (1024 - 53)); [reflexivity | lia].
Qed.

(** An integer below [2 ^ 53] is a binary64 number: its mantissa is the
    integer shifted left to 53 bits. *)
Lemma of_Z_pos (n : Z) :
  0 < n < 2 ^ 53 ->
  exists m, of_Z n = S754_finite false m (Z.log2 n - 52)
            /\ Zpos m = n * 2 ^ (52 - Z.log2 n)
            /\ Zpos (digits2_pos m) = 53.
Proof.
  intros [Hlo Hhi]. destruct n as [|p|p]; try lia.
  assert (Hlog : 0 <= Z.log2 (Zpos p) < 53).
  { split; [apply Z.log2_nonneg |]. apply Z.log2_lt_pow2; lia. }
  unfold of_Z, binary_normalize, binary_round.
  pose proof (digits2_pos_log2 p) as Hd.
  assert (Hf : fexp prec emax (Zpos (digits2_pos p) + 0) = Z.log2 (Zpos p) - 52).
  { rewrite Hd. unfold fexp, SpecFloat.emin, prec, emax. lia. }
  rewrite Hf.
  destruct (shl_align_spec p 0 (Z.log2 (Zpos p) - 52) ltac:(lia)) as [He Hm].
  destruct (shl_align p 0 (Z.log2 (Zpos p) - 52)) as [mz ez]. cbn [fst snd] in He, Hm.
  subst ez.
  replace (0 - (Z.log2 (Zpos p) - 52)) with (52 - Z.log2 (Zpos p)) in Hm by lia.
  assert (Hdz : Zpos (digits2_pos mz) = 53).
  { apply digits2_pos_unique. rewrite Hm.
    pose proof (Z.log2_spec (Zpos p) ltac:(lia)) as [Hl Hu].
    assert (E1 : 2 ^ (53 - 1)
                 = 2 ^ Z.log2 (Zpos p) * 2 ^ (52 - Z.log2 (Zpos p)))
      by (rewrite <- Z.pow_add_r by lia; f_equal; lia).
    assert (E2 : 2 ^ 53
                 = 2 ^ Z.succ (Z.log2 (Zpos p)) * 2 ^ (52 - Z.log2 (Zpos p)))
      by (rewrite <- Z.pow_add_r by lia; f_equal; lia).
    rewrite E1, E2.
    assert (0 < 2 ^ (52 - Z.log2 (Zpos p))) by (apply Z.pow_pos_nonneg; lia).
    split; [apply Z.mul_le_mono_nonneg_r; lia | apply Z.mul_lt_mono_pos_r; lia]. }
  exists mz. rewrite binary_round_aux_exact by lia. auto.
Qed.

Lemma leb_of_Z (k n : Z) :
  0 <= k <= n -> n < 2 ^ 53 -> 0 < n -> leb (of_Z k) (of_Z n) = true.
Proof.
  intros [Hk Hkn] Hn Hpos.
  destruct (of_Z_pos n ltac:(lia)) as (mn & -> & Hmn & _).
  destruct (Z.eq_dec k 0) as [-> | Hk0]; [reflexivity |].
  destruct (of_Z_pos k ltac:(lia)) as (mk & -> & Hmk & _).
  pose proof (Z.log2_le_mono k n Hkn) as Hlog.
  unfold leb, SFleb, SFcompare.
  destruct (Z.compare_spec (Z.log2 k - 52) (Z.log2 n - 52)) as [E | E | E];
    [| reflexivity | lia].
  assert (Hle : Zpos mk <= Zpos mn).
  { rewrite Hmk, Hmn. replace (Z.log2 k) with (Z.log2 n) by lia.
    apply Z.mul_le_mono_nonneg_r; [| lia].
    apply Z.pow_nonneg. lia. }
  change (Pos.compare_cont Eq mk mn) with (Pos.compare mk mn).
  destruct (Pos.compare_spec mk mn); [reflexivity | reflexivity | lia].
Qed.

(** Rounding a long product mantissa [mx * 2 ^ ex] whose exact value is at
    most the integer [n]: the result is a normal number that is still at
    most [n]. *)
Lemma binary_round_aux_upper (mx : positive) (ex n : Z) :
  53 < Zpos (digits2_pos mx) ->
  -1074 <= Zpos (digits2_pos mx) + ex - 53 ->
  ex <= 0 -> 0 < n < 2 ^ 53 ->
  Zpos mx <= n * 2 ^ (- ex) ->
  exists m e,
    binary_round_aux prec emax false (Zpos mx) ex loc_Exact = S754_finite false m e
    /\ 2 ^ 52 <= Zpos m
    /\ ((e < 0 /\ Zpos m <= n * 2 ^ (- e)) \/ (e = 0 /\ Zpos m <= n)).
Proof.
  intros Hd Hmin Hex [Hn0 Hn] Hmx.
  set (d := Zpos (digits2_pos mx)) in *.
  set (e' := d + ex - 53).
  destruct (digits2_pos_bounds mx) as [Hlo Hhi]. fold d in Hlo, Hhi.
  assert (Hpex : 0 < 2 ^ (- ex)) by (apply Z.pow_pos_nonneg; lia).
  assert (He' : e' <= 0).
  { assert (2 ^ (d - 1) < 2 ^ (53 - ex)).
    { replace (53 - ex) with (53 + - ex) by lia. rewrite Z.pow_add_r by lia.
      apply Z.le_lt_trans with (n * 2 ^ (- ex)); [lia |].
      apply Z.mul_lt_mono_pos_r; lia. }
    apply Z.pow_lt_mono_r_iff in H; lia. }
  set (k := Z.to_nat (d - 53)).
  assert (Hk : Z.of_nat k = d - 53) by (unfold k; lia).
  assert (Hpk : 0 < 2 ^ Z.of_nat k) by (apply Z.pow_pos_nonneg; lia).
  assert (Hfexp : fexp prec emax (d + ex) - ex = Z.of_nat k).
  { unfold fexp, SpecFloat.emin, prec, emax. lia. }
  unfold binary_round_aux.
  rewrite (shr_fexp_some mx ex k Hfexp ltac:(lia)).
  replace (ex + Z.of_nat k) with e' by (unfold e'; lia).
  set (K := n * 2 ^ (- e')).
  assert (HK : Zpos mx <= K * 2 ^ Z.of_nat k).
  { unfold K. rewrite <- Z.mul_assoc, <- Z.pow_add_r by lia.
    replace (- e' + Z.of_nat k) with (- ex) by (unfold e'; lia). exact Hmx. }
  pose proof (round_shr_upper k (Zpos mx) K ltac:(lia) HK) as HM. cbv zeta in HM.
  set (M := round_nearest_even
              (shr_m (Nat.iter k shr_1 {| shr_m := Zpos mx; shr_r := false; shr_s := false |}))
              (loc_of_shr_record
                 (Nat.iter k shr_1 {| shr_m := Zpos mx; shr_r := false; shr_s := false |})))
    in *.
  assert (Hq : 2 ^ 52 <= Zpos mx / 2 ^ Z.of_nat k < 2 ^ 53).
  { split.
    - apply Z.div_le_lower_bound; [lia |].
      rewrite <- Z.pow_add_r by lia. replace (Z.of_nat k + 52) with (d - 1) by lia.
      exact Hlo.
    - apply Z.div_lt_upper_bound; [lia |].
      rewrite <- Z.pow_add_r by lia. replace (Z.of_nat k + 53) with d by lia.
      exact Hhi. }
  assert (HMr : 2 ^ 52 <= M <= 2 ^ 53) by lia.
  assert (HMK : M <= K) by lia.
  assert (Hpe : 0 < 2 ^ (- e')) by (apply Z.pow_pos_nonneg; lia).
  assert (HK0 : e' = 0 -> K = n).
  { intros E0. unfold K. rewrite E0. change (- 0) with 0.
    rewrite Z.pow_0_r. lia. }
  clear HM HK. clearbody M.
  destruct M as [|pm|pm]; try lia.
  cbn [shr_m].
  destruct (Z.eq_dec (Zpos pm) (2 ^ 53)) as [Etop | Hnot].
  - (* the rounding carried into a 54th bit *)
    assert (He1 : e' <= -1).
    { destruct (Z.eq_dec e' 0) as [E0 | E0]; [| lia]. specialize (HK0 E0). lia. }
    assert (Hdig : Zpos (digits2_pos pm) = 54).
    { apply digits2_pos_unique. rewrite Etop. split; [reflexivity | reflexivity]. }
    assert (Hhalf : Zpos pm / 2 = Zpos 4503599627370496)
      by (rewrite Etop; reflexivity).
    exists 4503599627370496%positive, (e' + 1).
    split; [| split; [cbn; lia |]].
    + rewrite (shr_fexp_some pm e' 1%nat); [| | lia].
      * cbn [Nat.iter nat_rect]. rewrite shr_1_nonneg by lia. cbn [shr_m].
        rewrite Hhalf. change (Z.of_nat 1) with 1.
        unfold prec, emax. destruct (Z.leb_spec (e' + 1) (1024 - 53)); [reflexivity | lia].
      * rewrite Hdig. unfold fexp, SpecFloat.emin, prec, emax.
        change (Z.of_nat 1) with 1. unfold e' in *. lia.
    + assert (E : 2 ^ (- e') = 2 * 2 ^ (- (e' + 1))).
      { rewrite <- Z.pow_succ_r by lia. f_equal. lia. }
      assert (HK2 : 2 ^ 52 <= n * 2 ^ (- (e' + 1))).
      { subst K. rewrite E in HMK. lia. }
      destruct (Z.eq_dec e' (-1)) as [E1 | E1].
      * right. split; [lia |]. rewrite E1 in HK2.
        change (- (-1 + 1)) with 0 in HK2. rewrite Z.pow_0_r in HK2.
        change (Zpos 4503599627370496) with (2 ^ 52). lia.
      * left. split; [lia |].
        change (Zpos 4503599627370496) with (2 ^ 52). exact HK2.
  - assert (Hdig : Zpos (digits2_pos pm) = 53).
    { apply digits2_pos_unique. change (53 - 1) with 52. lia. }
    assert (Hf2 : fexp prec emax (Zpos (digits2_pos pm) + e') - e' <= 0).
    { rewrite Hdig. unfold fexp, SpecFloat.emin, prec, emax. unfold e' in *. lia. }
    exists pm, e'. split; [| split; [lia |]].
    + rewrite (shr_fexp_none pm e' loc_Exact Hf2). cbn [shr_record_of_loc shr_m].
      unfold prec, emax. destruct (Z.leb_spec e' (1024 - 53)); [reflexivity | lia].
    + destruct (Z.eq_dec e' 0) as [E0 | E0].
      * right. split; [exact E0 |]. specialize (HK0 E0). lia.
      * left. split; [lia |]. subst K. lia.
Qed.

(** The product of an integer [n] below [2 ^ 53] with a normal number that
    is at most one, rounded to binary64 and floored, is at most [n]. *)
Lemma floor_mul_le (n : Z) (mf : positive) (ef : Z) :
  0 < n < 2 ^ 53 ->
  Zpos (digits2_pos mf) = 53 -> -53 <= ef <= -52 -> Zpos mf <= 2 ^ (- ef) ->
  leb (Math_floor (mul (of_Z n) (S754_finite false mf ef))) (of_Z n) = true.
Proof.
  intros Hn Hdf Hef Hmf.
  destruct (of_Z_pos n Hn) as (mn & En & Hmn & Hdn).
  assert (Hlog : 0 <= Z.log2 n < 53).
  { split; [apply Z.log2_nonneg | apply Z.log2_lt_pow2; lia]. }
  destruct (digits2_pos_bounds mn) as [Hnlo Hnhi]. rewrite Hdn in Hnlo, Hnhi.
  destruct (digits2_pos_bounds mf) as [Hflo Hfhi]. rewrite Hdf in Hflo, Hfhi.
  change (53 - 1) with 52 in *.
  set (ex := Z.log2 n - 52 + ef).
  assert (Hpe : 0 < 2 ^ (- ef)) by (apply Z.pow_pos_nonneg; lia).
  assert (Hpn : 0 < 2 ^ (52 - Z.log2 n)) by (apply Z.pow_pos_nonneg; lia).
  assert (Hprod : 2 ^ 104 <= Zpos (mn * mf)).
  { rewrite Pos2Z.inj_mul. change (2 ^ 104) with (2 ^ 52 * 2 ^ 52).
    apply Z.mul_le_mono_nonneg; lia. }
  assert (Hdig : 104 < Zpos (digits2_pos (mn * mf))).
  { destruct (digits2_pos_bounds (mn * mf)) as [_ Hhi].
    apply (Z.pow_lt_mono_r_iff 2); lia. }
  destruct (binary_round_aux_upper (mn * mf) ex n) as (m & e & Er & Hm52 & Hme);
    try (unfold ex; lia).
  { rewrite Pos2Z.inj_mul, Hmn.
    replace (- ex) with ((52 - Z.log2 n) + - ef) by (unfold ex; lia).
    rewrite Z.pow_add_r by lia. rewrite <- Z.mul_assoc.
    apply Z.mul_le_mono_nonneg_l; [lia |].
    apply Z.mul_le_mono_nonneg_l; lia. }
  rewrite En at 1. unfold mul, SFmul. cbn [xorb]. fold ex. rewrite Er.
  unfold Math_floor.
  destruct Hme as [[He Hle] | [-> Hle]].
  - destruct (Z.leb_spec 0 e); [lia |].
    cbn [cond_Zopp]. rewrite Z.shiftr_div_pow2 by lia.
    assert (Hp : 0 < 2 ^ (- e)) by (apply Z.pow_pos_nonneg; lia).
    apply leb_of_Z; try lia. split.
    + apply Z.div_pos; lia.
    + apply Z.div_le_upper_bound; lia.
  - cbn [Z.leb Z.compare].
    assert (El : Z.log2 n = 52).
    { apply Z.log2_unique; [lia |]. change (Z.succ 52) with 53. lia. }
    rewrite En, El. rewrite El in Hmn. cbn in Hmn.
    unfold leb, SFleb, SFcompare. cbn [Z.sub Z.compare Z.add Z.opp Z.pos_sub].
    change (Pos.compare_cont Eq m mn) with (Pos.compare m mn).
    destruct (Pos.compare_spec m mn); [reflexivity | reflexivity | lia].
Qed.

Lemma reductionFactor_normal (settings : OptimizationSettings) :
  exists mf ef,
    reductionFactor settings = S754_finite false mf ef
    /\ Zpos (digits2_pos mf) = 53 /\ -53 <= ef <= -52 /\ Zpos mf <= 2 ^ (- ef).
Proof.
  unfold reductionFactor.
  destruct (50 <? meshDecimation settings);
    destruct (decide (textureQuality settings = low));
    eexists _, _; (split; [vm_compute; reflexivity |]); vm_compute;
    repeat split; congruence.
Qed.

(** The size the fallback reports never exceeds the size of the file. *)
Lemma fallback_size_le (file : File) (settings : OptimizationSettings) :
  Z.of_nat (length (file_bytes file)) < 2 ^ 53 ->
  leb (Math_floor (mul (file_size file) (reductionFactor settings)))
      (file_size file) = true.
Proof.
  intros Hsize. unfold file_size.
  destruct (reductionFactor_normal settings) as (mf & ef & -> & Hd & He & Hm).
  destruct (Z.eq_dec (Z.of_nat (length (file_bytes file))) 0) as [-> | Hne].
  - reflexivity.
  - apply floor_mul_le; auto. lia.
Qed.

Lemma of_Z_pos_inv (n : Z) (m : positive) (e : Z) :
  0 < n < 2 ^ 53 -> e = Z.log2 n - 52 -> Zpos m = n * 2 ^ (52 - Z.log2 n) ->
  of_Z n = S754_finite false m e.
Proof.
  intros Hn -> Hm. destruct (of_Z_pos n Hn) as (m' & -> & Hm' & _).
  f_equal. apply Pos2Z.inj. congruence.
Qed.

(** A mantissa of at least 53 bits that stands for an integer below
    [2 ^ 53] is rounded to that integer. *)
Lemma binary_round_aux_integer (mx : positive) (ex N : Z) :
  0 < N < 2 ^ 53 -> ex <= 0 -> Zpos mx = N * 2 ^ (- ex) ->
  53 <= Zpos (digits2_pos mx) ->
  binary_round_aux prec emax false (Zpos mx) ex loc_Exact = of_Z N.
Proof.
  intros HN Hex Hmx Hd.
  set (L := Z.log2 N).
  assert (HL : 0 <= L < 53).
  { split; [apply Z.log2_nonneg | apply Z.log2_lt_pow2; lia]. }
  pose proof (Z.log2_spec N ltac:(lia)) as [HLlo HLhi]. fold L in HLlo, HLhi.
  assert (Hpe : 0 < 2 ^ (- ex)) by (apply Z.pow_pos_nonneg; lia).
  assert (Hdig : Zpos (digits2_pos mx) = L + 1 - ex).
  { apply digits2_pos_unique. rewrite Hmx.
    replace (L + 1 - ex - 1) with (L + - ex) by lia.
    replace (L + 1 - ex) with (Z.succ L + - ex) by lia.
    rewrite !Z.pow_add_r by lia.
    split; [apply Z.mul_le_mono_nonneg_r; lia | apply Z.mul_lt_mono_pos_r; lia]. }
  set (k := Z.to_nat (L - 52 - ex)).
  assert (Hk : Z.of_nat k = L - 52 - ex) by (unfold k; lia).
  assert (Hsplit : 2 ^ (- ex) = 2 ^ (52 - L) * 2 ^ Z.of_nat k).
  { rewrite <- Z.pow_add_r by lia. f_equal. lia. }
  destruct (Nat.eq_dec k 0%nat) as [Hk0 | Hk0].
  - rewrite binary_round_aux_exact by lia.
    symmetry. apply of_Z_pos_inv; [lia | fold L; lia |].
    fold L. rewrite Hmx. f_equal. f_equal. lia.
  - assert (Hpk : 0 < 2 ^ Z.of_nat k) by (apply Z.pow_pos_nonneg; lia).
    assert (Hq : Zpos mx / 2 ^ Z.of_nat k = N * 2 ^ (52 - L)).
    { rewrite Hmx, Hsplit, Z.mul_assoc. apply Z.div_mul. lia. }
    assert (Hmod : Zpos mx mod 2 ^ Z.of_nat k = 0).
    { rewrite Hmx, Hsplit, Z.mul_assoc. apply Z.mod_mul. lia. }
    assert (Hfexp : fexp prec emax (Zpos (digits2_pos mx) + ex) - ex = Z.of_nat k).
    { rewrite Hdig. unfold fexp, SpecFloat.emin, prec, emax. lia. }
    unfold binary_round_aux.
    rewrite (shr_fexp_some mx ex k Hfexp ltac:(lia)).
    destruct (shr_iter k (Zpos mx) ltac:(lia)) as [Hm Hexact].
    destruct (Hexact Hmod) as [Hr Hs].
    destruct (Nat.iter k shr_1 {| shr_m := Zpos mx; shr_r := false; shr_s := false |})
      as [q r s]. cbn [shr_m shr_r shr_s] in Hm, Hr, Hs. subst q r s.
    cbn [loc_of_shr_record round_nearest_even shr_m]. rewrite Hq.
    assert (Hpos : 0 < N * 2 ^ (52 - L)).
    { apply Z.mul_pos_pos; [lia | apply Z.pow_pos_nonneg; lia]. }
    destruct (N * 2 ^ (52 - L)) as [|pq|pq] eqn:Epq; try lia.
    replace (ex + Z.of_nat k) with (L - 52) by lia.
    destruct (of_Z_pos N HN) as (mN & EN & HmN & HdN). fold L in EN, HmN.
    assert (pq = mN) by (apply Pos2Z.inj; congruence). subst pq.
    rewrite shr_fexp_none
      by (rewrite HdN; unfold fexp, SpecFloat.emin, prec, emax; lia).
    cbn [shr_record_of_loc shr_m]. rewrite EN.
    unfold prec, emax. destruct (Z.leb_spec (L - 52) (1024 - 53)); [reflexivity | lia].
Qed.

Lemma shl_align_none (mx : positive) (ex ex' : Z) :
  ex <= ex' -> shl_align mx ex ex' = (mx, ex).
Proof.
  intros H. unfold shl_align. destruct (ex' - ex) eqn:E; try reflexivity. lia.
Qed.

Lemma of_Z_0 : of_Z 0 = S754_zero false.
Proof. reflexivity. Qed.

(** Integers add exactly as long as the sum stays below [2 ^ 53]. *)
Lemma add_of_Z (a b : Z) :
  0 <= a -> 0 <= b -> a + b < 2 ^ 53 -> add (of_Z a) (of_Z b) = of_Z (a + b).
Proof.
  intros Ha Hb Hab.
  destruct (Z.eq_dec a 0) as [-> | Ha0].
  { rewrite of_Z_0, Z.add_0_l. destruct (Z.eq_dec b 0) as [-> | Hb0]; [reflexivity |].
    destruct (of_Z_pos b ltac:(lia)) as (mb & -> & _). reflexivity. }
  destruct (Z.eq_dec b 0) as [-> | Hb0].
  { rewrite of_Z_0, Z.add_0_r.
    destruct (of_Z_pos a ltac:(lia)) as (ma & -> & _). reflexivity. }
  destruct (of_Z_pos a ltac:(lia)) as (ma & -> & Hma & Hda).
  destruct (of_Z_pos b ltac:(lia)) as (mb & -> & Hmb & Hdb).
  assert (HLa : 0 <= Z.log2 a < 53)
    by (split; [apply Z.log2_nonneg | apply Z.log2_lt_pow2; lia]).
  assert (HLb : 0 <= Z.log2 b < 53)
    by (split; [apply Z.log2_nonneg | apply Z.log2_lt_pow2; lia]).
  set (ea := Z.log2 a - 52) in *. set (eb := Z.log2 b - 52) in *.
  set (ez := Z.min ea eb).
  assert (Hez : ez <= ea /\ ez <= eb /\ ez <= 0) by (unfold ez, ea, eb; lia).
  destruct (shl_align_spec ma ea ez ltac:(lia)) as [_ Hsa].
  destruct (shl_align_spec mb eb ez ltac:(lia)) as [_ Hsb].
  unfold add, SFadd. fold ez. cbn [cond_Zopp].
  set (pa := fst (shl_align ma ea ez)) in *.
  set (pb := fst (shl_align mb eb ez)) in *.
  change (Zpos pa + Zpos pb) with (Zpos (pa + pb)).
  cbn [binary_normalize]. unfold binary_round.
  assert (Hva : Zpos pa = a * 2 ^ (- ez)).
  { rewrite Hsa, Hma, <- Z.mul_assoc, <- Z.pow_add_r by (unfold ea; lia).
    f_equal. f_equal. unfold ea. lia. }
  assert (Hvb : Zpos pb = b * 2 ^ (- ez)).
  { rewrite Hsb, Hmb, <- Z.mul_assoc, <- Z.pow_add_r by (unfold eb; lia).
    f_equal. f_equal. unfold eb. lia. }
  assert (Hsum : Zpos (pa + pb) = (a + b) * 2 ^ (- ez))
    by (rewrite Pos2Z.inj_add, Hva, Hvb; lia).
  assert (Hbig : 2 ^ 52 <= Zpos (pa + pb)).
  { destruct (digits2_pos_bounds ma) as [Hlo _]. rewrite Hda in Hlo.
    change (53 - 1) with 52 in Hlo.
    assert (1 <= 2 ^ (ea - ez)) by (apply (Z.pow_le_mono_r 2 0); lia).
    rewrite Pos2Z.inj_add, Hsa. nia. }
  assert (Hdig : 53 <= Zpos (digits2_pos (pa + pb))).
  { destruct (digits2_pos_bounds (pa + pb)) as [_ Hhi].
    assert (H : 2 ^ 52 < 2 ^ Zpos (digits2_pos (pa + pb))) by lia.
    apply Z.pow_lt_mono_r_iff in H; lia. }
  rewrite shl_align_none
    by (unfold fexp, SpecFloat.emin, prec, emax; lia).
  apply binary_round_aux_integer; lia.
Qed.

(** A multiple of three divides by three exactly. *)
Lemma div_of_Z_3 (k : Z) :
  0 <= k -> 3 * k < 2 ^ 53 -> div (of_Z (3 * k)) (of_Z 3) = of_Z k.
Proof.
  intros Hk Hk3.
  destruct (Z.eq_dec k 0) as [-> | Hk0]; [reflexivity |].
  destruct (of_Z_pos (3 * k) ltac:(lia)) as (m1 & -> & Hm1 & Hd1).
  set (l := Z.log2 (3 * k)) in *.
  assert (Hl : 1 <= l < 53).
  { split; [apply Z.log2_le_pow2; cbn; lia | apply Z.log2_lt_pow2; lia]. }
  pose proof (Z.log2_spec (3 * k) ltac:(lia)) as [Hllo _]. fold l in Hllo.
  change (of_Z 3) with (S754_finite false 6755399441055744 (-51)).
  unfold div, SFdiv, SFdiv_core_binary. cbn [xorb Zdigits2]. rewrite Hd1.
  change (Zpos (digits2_pos 6755399441055744)) with 53.
  replace (Z.min (fexp prec emax (53 + (l - 52) - (53 + -51))) (l - 52 - -51))
    with (l - 54) by (unfold fexp, SpecFloat.emin, prec, emax; lia).
  replace (l - 52 - -51 - (l - 54)) with 53 by lia.
  rewrite Z.shiftl_mul_pow2 by lia.
  set (q := k * 2 ^ (54 - l)).
  assert (Hfact : Zpos m1 * 2 ^ 53 = q * Zpos 6755399441055744).
  { rewrite Hm1. unfold q.
    change (Zpos 6755399441055744) with (3 * 2 ^ 51).
    replace (2 ^ (54 - l)) with (2 ^ (52 - l) * 2 ^ 2)
      by (rewrite <- Z.pow_add_r by lia; f_equal; lia).
    change (2 ^ 53) with (2 ^ 2 * 2 ^ 51). ring. }
  assert (Hdiv : Z.div_eucl (Zpos m1 * 2 ^ 53) (Zpos 6755399441055744) = (q, 0)).
  { rewrite (surjective_pairing (Z.div_eucl _ _)).
    change (fst (Z.div_eucl ?a ?b)) with (a / b).
    change (snd (Z.div_eucl ?a ?b)) with (a mod b).
    rewrite Hfact, Z.div_mul, Z.mod_mul by lia. reflexivity. }
  rewrite Hdiv. change (new_location (Zpos 6755399441055744) 0) with loc_Exact.
  assert (Hq52 : 2 ^ 52 <= q).
  { unfold q.
    replace (2 ^ (54 - l)) with (4 * 2 ^ (52 - l))
      by (change 4 with (2 ^ 2); rewrite <- Z.pow_add_r by lia; f_equal; lia).
    replace (2 ^ 52) with (2 ^ l * 2 ^ (52 - l))
      by (rewrite <- Z.pow_add_r by lia; f_equal; lia).
    assert (0 < 2 ^ (52 - l)) by (apply Z.pow_pos_nonneg; lia).
    nia. }
  destruct q as [|pq|pq] eqn:Eq; try lia.
  apply binary_round_aux_integer; try lia.
  - rewrite <- Eq. f_equal. f_equal. lia.
  - destruct (digits2_pos_bounds pq) as [_ Hhi].
    assert (H : 2 ^ 52 < 2 ^ Zpos (digits2_pos pq)) by lia.
    apply Z.pow_lt_mono_r_iff in H; lia.
Qed.

Lemma Math_floor_of_Z (t : Z) : 0 <= t < 2 ^ 53 -> Math_floor (of_Z t) = of_Z t.
Proof.
  intros Ht. destruct (Z.eq_dec t 0) as [-> | Ht0]; [reflexivity |].
  destruct (of_Z_pos t ltac:(lia)) as (m & E & Hm & _).
  assert (HL : 0 <= Z.log2 t < 53)
    by (split; [apply Z.log2_nonneg | apply Z.log2_lt_pow2; lia]).
  rewrite E at 1. unfold Math_floor.
  destruct (Z.leb_spec 0 (Z.log2 t - 52)); [symmetry; exact E |].
  cbn [cond_Zopp]. rewrite Z.shiftr_div_pow2 by lia.
  replace (- (Z.log2 t - 52)) with (52 - Z.log2 t) by lia.
  rewrite Hm, Z.div_mul; [reflexivity |].
  apply Z.pow_nonzero; lia.
Qed.

Lemma sum_Z_nonneg (l : list Z) : Forall (fun z => 0 <= z) l -> 0 <= sum_Z l.
Proof.
  induction 1 as [|z l Hz _ IH]; cbn [sum_Z fold_right]; [lia |].
  fold (sum_Z l). lia.
Qed.

Lemma fold_add_of_Z (l : list Z) (acc : Z) :
  0 <= acc -> Forall (fun z => 0 <= z) l -> acc + sum_Z l < 2 ^ 53 ->
  fold_left add (map of_Z l) (of_Z acc) = of_Z (acc + sum_Z l).
Proof.
  intros Hacc Hl. revert acc Hacc.
  induction Hl as [|z l Hz Hl IH]; intros acc Hacc Hsum;
    cbn [map fold_left sum_Z fold_right] in *.
  - now rewrite Z.add_0_r.
  - fold (sum_Z l) in *. pose proof (sum_Z_nonneg l Hl).
    rewrite add_of_Z by lia. rewrite IH by lia. f_equal. lia.
Qed.

(** On triangle lists, where every counted count is a multiple of three, the
    running total is an integer at every step. *)
Lemma thirds_exact (bases : list Z) :
  Forall (fun b => 0 <= b /\ b mod 3 = 0) bases -> sum_Z bases < 2 ^ 53 ->
  fold_left add (map (fun b => div (of_Z b) (of_Z 3)) bases) (of_Z 0)
  = of_Z (sum_Z (map (fun b => b / 3) bases))
  /\ 0 <= sum_Z (map (fun b => b / 3) bases) < 2 ^ 53.
Proof.
  intros Hall Hsum.
  assert (Hnn : Forall (fun z => 0 <= z) bases)
    by (eapply List.Forall_impl; [| exact Hall]; cbn; tauto).
  assert (Hq : Forall (fun z => 0 <= z) (map (fun b => b / 3) bases)).
  { apply List.Forall_map. eapply List.Forall_impl; [| exact Hall].
    cbn. intros b [Hb _]. apply Z.div_pos; lia. }
  assert (Hle : sum_Z (map (fun b => b / 3) bases) <= sum_Z bases).
  { clear Hsum Hq Hnn.
    induction Hall as [|b l [Hb Hm] _ IH]; cbn [map sum_Z fold_right]; [lia |].
    fold (sum_Z l) (sum_Z (map (fun b => b / 3) l)).
    pose proof (Z.div_mod b 3 ltac:(lia)). lia. }
  pose proof (sum_Z_nonneg _ Hq) as H0.
  split; [| lia].
  assert (Hmap : map (fun b => div (of_Z b) (of_Z 3)) bases
                 = map of_Z (map (fun b => b / 3) bases)).
  { rewrite map_map. clear Hq Hle H0.
    induction Hall as [|b l [Hb Hm] Hall IH]; cbn [map]; [reflexivity |].
    cbn [sum_Z fold_right] in Hsum. fold (sum_Z l) in Hsum.
    assert (Hl : Forall (fun z => 0 <= z) l) by (now inversion Hnn).
    pose proof (sum_Z_nonneg l Hl).
    rewrite IH by (auto; lia). f_equal.
    pose proof (Z.div_mod b 3 ltac:(lia)) as Hb3. rewrite Hm, Z.add_0_r in Hb3.
    rewrite Hb3 at 1. apply div_of_Z_3; [apply Z.div_pos; lia | lia]. }
  rewrite Hmap, fold_add_of_Z by (auto; lia). reflexivity.
Qed.

(** ** The single-file entry point *)

Lemma optimizeGLB_body_throws_iff (env : Collaborators) (file : File)
  (settings : OptimizationSettings) (log : list ProgressEvent) :
  (exists l e, optimizeGLB_body env file settings log = (l, Throw e))
  <-> StepThrows env file settings.
Proof.
  split.
  - intros (l & e & Hrun). revert Hrun. run_async. step_async.
    destruct (isValidGLB (file_bytes file)) eqn:Hin; step_async;
      [| intros _; now apply InputRejected].
    destruct (io_readBinary env (file_bytes file)) as [d | e0] eqn:Hdec; step_async;
      [| intros _; now apply (DecodeThrows _ _ _ e0)].
    destruct (document_transform env (meshTransforms settings) d)
      as [d1 [e1 |]] eqn:Hgeo; step_async;
      [intros _; now apply (GeometryThrows _ _ _ d d1 e1) |].
    assert (Hdoc : forall l0,
              (if enabled (dracoCompression settings)
               then bind (onProgress 80 compressing)
                      (fun _ => safeDracoCompression env (textureStage d1 settings) settings)
               else ret (textureStage d1 settings)) l0
              = (l0 ++ (if enabled (dracoCompression settings)
                        then [ {| percent := 80; stage := compressing |} ] else []),
                 Ok (after_draco env settings (textureStage d1 settings)))).
    { intros l0. unfold after_draco.
      destruct (enabled (dracoCompression settings)).
      - unfold bind, onProgress. rewrite safeDracoCompression_run. reflexivity.
      - unfold ret. now rewrite app_nil_r. }
    cbv [bind onProgress ret] in Hdoc. rewrite Hdoc.
    destruct (document_transform env [dedup; prune]
                (after_draco env settings (textureStage d1 settings)))
      as [d2 [e2 |]] eqn:Hclean; step_async;
      [intros _; now apply (CleanupThrows _ _ _ d d1 d2 e2) |].
    destruct (io_writeBinary env d2) as [out | e3] eqn:Henc; step_async;
      [| intros _; now apply (EncodeThrows _ _ _ d d1 d2 e3)].
    destruct (isValidGLB out) eqn:Hout; step_async;
      [intros [=] | intros _; now apply (OutputRejected _ _ _ d d1 d2 out)].
  - intros Hstep. run_async. step_async.
    destruct Hstep; unfold after_draco in *;
      repeat (step_async; first [progress use_outcomes | case_step]); eauto.
Qed.

(** C1. The single-file entry point never throws: whatever the codec and
    the passes do, it returns a result.  When a step of its pipeline throws
    (the input fails the format check, the decoder, a pass or the encoder
    throws, or the output fails the format check), the result is the one of
    the safe fallback: the optimized bytes are the bytes of the input file,
    and the reported optimized size is at most the original size.  (A file
    has fewer than 2 ^ 53 bytes; the Draco step catches what the compressor
    throws, so it is not a step that throws.) *)
Theorem optimizeGLB_never_throws (env : Collaborators) (file : File)
  (settings : OptimizationSettings) (log : list ProgressEvent) :
  Z.of_nat (length (file_bytes file)) < 2 ^ 53 ->
  exists log' r,
    optimizeGLB env file settings log = (log', Ok r)
    /\ (StepThrows env file settings ->
        optimizedBlob r = file_bytes file
        /\ originalSize (stats r) = file_size file
        /\ leb (optimizedSize (stats r)) (originalSize (stats r)) = true
        /\ modelInfo r = InfoNotAvailable)
    /\ (StepThrows env file settings
        <-> exists l e, optimizeGLB_body env file settings log = (l, Throw e)).
Proof.
  intros Hsize.
  pose proof (fallback_size_le file settings Hsize) as Hle.
  pose proof (optimizeGLB_body_throws_iff env file settings log) as Hiff.
  destruct (optimizeGLB_body env file settings log) as [l [r | e]] eqn:Hbody.
  - exists l, r. split; [| split].
    + unfold optimizeGLB, try_catch. rewrite Hbody. reflexivity.
    + intros Hstep. apply Hiff in Hstep as (l' & e' & [=]).
    + symmetry. exact Hiff.
  - destruct (safeFallbackOptimization_run file settings l)
      as (r & Hrun & Hblob & Horig & Hopt & Hinfo).
    eexists _, r. split; [| split].
    + unfold optimizeGLB, try_catch. rewrite Hbody. exact Hrun.
    + intros _. rewrite Hopt, Horig. auto.
    + symmetry. exact Hiff.
Qed.

Lemma optimizeGLB_never_throws_witness :
  exists log' r,
    optimizeGLB env_transform_fails glb_file default_settings [] = (log', Ok r)
    /\ optimizedBlob r = file_bytes glb_file
    /\ leb (optimizedSize (stats r)) (originalSize (stats r)) = true.
Proof.
  destruct (optimizeGLB_never_throws env_transform_fails glb_file default_settings [])
    as (log' & r & Hrun & Hfall & _).
  - reflexivity.
  - exists log', r. split; [exact Hrun |].
    destruct Hfall as (Hblob & _ & Hle & _); [| auto].
    apply (GeometryThrows _ _ _ empty_document empty_document
             (Err_External "meshopt simplifier failed")); reflexivity.
Defined.

(** ** Progress reporting *)

Lemma checkpoints_sorted (settings : OptimizationSettings) :
  StronglySorted Z.le (checkpoints settings).
Proof.
  unfold checkpoints. destruct (enabled (dracoCompression settings));
    cbn [app]; repeat constructor; lia.
Qed.

Lemma not_sorted_after_30 (rest tail : list Z) :
  ~ StronglySorted Z.le (([10; 20; 30] ++ rest) ++ 25 :: tail).
Proof.
  cbn [app]. intros H.
  apply StronglySorted_inv in H as [H _].
  apply StronglySorted_inv in H as [H _].
  apply StronglySorted_inv in H as [_ H].
  rewrite List.Forall_app in H. destruct H as [_ H].
  apply Forall_inv in H. lia.
Qed.

Lemma optimizeGLB_progress (env : Collaborators) (file : File)
  (settings : OptimizationSettings) :
  map percent (fst (optimizeGLB env file settings []))
  = map percent (fst (optimizeGLB_body env file settings []))
    ++ match snd (optimizeGLB_body env file settings []) with
       | Ok _ => []
       | Throw _ => fallback_checkpoints
       end.
Proof.
  unfold optimizeGLB, try_catch.
  destruct (optimizeGLB_body env file settings []) as [l [r | e]]; cbn [fst snd].
  - now rewrite app_nil_r.
  - destruct (safeFallbackOptimization_run file settings l) as (r & -> & _).
    cbn [fst]. rewrite map_app. reflexivity.
Qed.

(** C4, the claim as stated, fails: when the geometry pass throws after the
    30 % checkpoint, the safe fallback starts again at 25 %. *)
Lemma optimizeGLB_progress_regresses :
  map percent (fst (optimizeGLB env_transform_fails glb_file default_settings []))
  = [10; 20; 30; 25; 50; 75; 100]
  /\ ~ StronglySorted Z.le
       (map percent (fst (optimizeGLB env_transform_fails glb_file default_settings []))).
Proof.
  assert (E : map percent
                (fst (optimizeGLB env_transform_fails glb_file default_settings []))
              = [10; 20; 30; 25; 50; 75; 100]) by (vm_compute; reflexivity).
  split; [exact E |]. rewrite E.
  exact (not_sorted_after_30 [] [50; 75; 100]).
Qed.

(** C4, amended.  Every progress callback carries an integer percentage.
    Within the pipeline proper the percentages never decrease, and within
    the safe fallback (25, 50, 75, 100) they never decrease.  Over a whole
    single-file run they never decrease exactly when the run completes
    without the fallback or diverts to it before the 20 % checkpoint, that
    is when the input fails the format check or the decoder throws. *)
Theorem optimizeGLB_progress_monotone (env : Collaborators) (file : File)
  (settings : OptimizationSettings) :
  let body := optimizeGLB_body env file settings [] in
  let run := optimizeGLB env file settings [] in
  StronglySorted Z.le (map percent (fst body))
  /\ StronglySorted Z.le fallback_checkpoints
  /\ map percent (fst run)
     = map percent (fst body)
       ++ match snd body with Ok _ => [] | Throw _ => fallback_checkpoints end
  /\ (StronglySorted Z.le (map percent (fst run))
      <-> (exists r, snd body = Ok r)
          \/ isValidGLB (file_bytes file) = false
          \/ exists e, io_readBinary env (file_bytes file) = Throw e).
Proof.
  cbv zeta.
  pose proof (optimizeGLB_body_progress env file settings) as Hbody.
  pose proof (optimizeGLB_progress env file settings) as Hrun.
  cbv zeta in Hbody.
  split; [| split; [| split; [exact Hrun |]]].
  - destruct (snd (optimizeGLB_body env file settings [])) as [r | e].
    + rewrite Hbody. apply checkpoints_sorted.
    + destruct Hbody as [[-> _] | (_ & _ & rest & -> & Hs)];
        [repeat constructor | exact Hs].
  - unfold fallback_checkpoints. repeat constructor; lia.
  - rewrite Hrun.
    destruct (snd (optimizeGLB_body env file settings [])) as [r | e].
    + rewrite app_nil_r, Hbody. split; [eauto | intros _; apply checkpoints_sorted].
    + destruct Hbody as [[-> Hwhy] | (Hvalid & [d Hdec] & rest & -> & _)].
      * split; [intros _; destruct Hwhy; auto |].
        intros _. cbn. repeat constructor; lia.
      * split.
        -- intros Hs. exfalso. revert Hs. apply not_sorted_after_30.
        -- intros [[r [=]] | [Hbad | [e' He']]]; congruence.
Qed.

(** ** The external texture pass *)

Lemma recompressTexture_throws (env : Collaborators) (document : Document)
  (settings : OptimizationSettings) (quality : number)
  (texture : Texture) (image : bytes) :
  recompressTexture env document settings quality texture image
  = Throw (Err_TypeError "document.createElement is not a function").
Proof. reflexivity. Qed.

Lemma optimizeExternalTexture_id (env : Collaborators) (document : Document)
  (settings : OptimizationSettings) (quality : number) (texture : Texture) :
  optimizeExternalTexture env document settings quality texture = texture.
Proof.
  unfold optimizeExternalTexture. destruct (getImage texture); [| reflexivity].
  rewrite recompressTexture_throws. reflexivity.
Qed.

Lemma optimizeExternalTextures_id (env : Collaborators) (document : Document)
  (settings : OptimizationSettings) :
  optimizeExternalTextures env document settings = document.
Proof.
  unfold optimizeExternalTextures.
  rewrite (map_ext _ id) by (intros t; apply optimizeExternalTexture_id).
  rewrite map_id. destruct document; reflexivity.
Qed.

(** C3, what the code does.  In [optimizeExternalTextures] the call
    [document.createElement('canvas')] is made on the glTF-Transform
    document, throws inside the [try], and the texture is left as it was:
    no texture is ever decoded, resized or re-encoded, whatever the browser
    would answer.  On a document with one PNG texture and the [low] tier the
    texture keeps its bytes and its MIME type [image/png]. *)
Theorem optimizeExternalTextures_leaves_textures (env : Collaborators)
  (document : Document) (settings : OptimizationSettings) :
  listTextures (optimizeExternalTextures env document settings)
  = listTextures document
  /\ listTextures (optimizeExternalTextures env_identity textured_document low_settings)
     = [png_texture]
  /\ getMimeType png_texture <> "image/jpeg"%string.
Proof.
  split; [| split].
  - now rewrite optimizeExternalTextures_id.
  - reflexivity.
  - discriminate.
Qed.

(** ** The multi-file entry point *)

Lemma optimizeGLTFWithTextures_rethrows (env : Collaborators) (gltfFile : File)
  (textureFiles : list File) (settings : OptimizationSettings)
  (log : list ProgressEvent) :
  optimizeGLTFWithTextures env gltfFile textureFiles settings log
  = optimizeGLTFWithTextures_body env gltfFile textureFiles settings log.
Proof.
  unfold optimizeGLTFWithTextures, try_catch, throw.
  destruct (optimizeGLTFWithTextures_body env gltfFile textureFiles settings log)
    as [l [r | e]]; reflexivity.
Qed.

(** C8. The multi-file entry point hands every exception on to its caller:
    when parsing the scene text, decoding, the geometry pass, the final
    cleanup or the encoder throws [e], the entry point throws that same [e];
    it returns only when every step has returned, and then with the
    encoder's bytes and the statistics of the optimized document, never with
    the fallback's bundle.  (The texture step and the Draco step catch what
    is thrown inside them, so as steps of the entry point they always
    return.) *)
Theorem optimizeGLTFWithTextures_propagates (env : Collaborators) (gltfFile : File)
  (textureFiles : list File) (settings : OptimizationSettings)
  (log : list ProgressEvent) :
  let run := optimizeGLTFWithTextures env gltfFile textureFiles settings log in
  let text := string_of_list_byte (file_bytes gltfFile) in
  let resources := map (fun f => (file_name f, file_bytes f)) textureFiles in
  let later d1 := after_draco env settings (optimizeExternalTextures env d1 settings) in
  run = optimizeGLTFWithTextures_body env gltfFile textureFiles settings log
  /\ (forall e, JSON_parse env text = Throw e -> snd run = Throw e)
  /\ (forall json e,
        JSON_parse env text = Ok json ->
        io_readJSON env json resources = Throw e -> snd run = Throw e)
  /\ (forall json d d1 e,
        JSON_parse env text = Ok json ->
        io_readJSON env json resources = Ok d ->
        document_transform env (meshTransforms settings) d = (d1, Some e) ->
        snd run = Throw e)
  /\ (forall json d d1 d2 e,
        JSON_parse env text = Ok json ->
        io_readJSON env json resources = Ok d ->
        document_transform env (meshTransforms settings) d = (d1, None) ->
        document_transform env [dedup; prune] (later d1) = (d2, Some e) ->
        snd run = Throw e)
  /\ (forall json d d1 d2 e,
        JSON_parse env text = Ok json ->
        io_readJSON env json resources = Ok d ->
        document_transform env (meshTransforms settings) d = (d1, None) ->
        document_transform env [dedup; prune] (later d1) = (d2, None) ->
        io_writeBinary env d2 = Throw e ->
        snd run = Throw e)
  /\ (forall r,
        snd run = Ok r ->
        exists json d d1 d2,
          JSON_parse env text = Ok json
          /\ io_readJSON env json resources = Ok d
          /\ document_transform env (meshTransforms settings) d = (d1, None)
          /\ document_transform env [dedup; prune] (later d1) = (d2, None)
          /\ io_writeBinary env d2 = Ok (optimizedBlob r)
          /\ modelInfo r = InfoSingle (getModelStats d2))
  /\ (forall d l,
        snd (safeDracoCompression env d settings l)
        = Ok (fst (document_transform env [draco (dracoOptions settings)] d))).
Proof.
  cbv zeta. rewrite optimizeGLTFWithTextures_rethrows.
  split; [reflexivity |]. unfold after_draco.
  assert (Hdraco : forall d l,
            snd (safeDracoCompression env d settings l)
            = Ok (fst (document_transform env [draco (dracoOptions settings)] d)))
    by (intros d l; now rewrite safeDracoCompression_run).
  repeat split; try exact Hdraco; clear Hdraco; run_async.
  1-5: intros;
       repeat (step_async; first [progress use_outcomes | case_step]);
       reflexivity.
  intros r. step_async.
  repeat (case_step; step_async); cbn [snd]; intros [= <-];
    cbn [optimizedBlob modelInfo]; eauto 10.
Qed.

(** ** The triangle count *)

(** C2, the claim as stated, fails: two primitives of two vertices each are
    counted as one triangle, where the sum of the truncated quotients is
    zero; the fraction is dropped from the total, not from each term. *)
Lemma triangles_not_truncated_per_primitive :
  triangles (getModelStats (document_of_primitives [unindexed 2; unindexed 2]))
  = of_Z 1
  /\ spec_total_triangles (document_of_primitives [unindexed 2; unindexed 2]) = 0
  /\ triangles (getModelStats (document_of_primitives [unindexed 2; unindexed 2]))
     <> of_Z (spec_total_triangles (document_of_primitives [unindexed 2; unindexed 2])).
Proof.
  split; [vm_compute; reflexivity |].
  split; [vm_compute; reflexivity |].
  vm_compute. discriminate.
Qed.

(** C2, amended.  For every primitive that has a POSITION attribute the
    inspector adds the quotient of the index count (if the primitive is
    indexed) or of the vertex count (otherwise) by three, as a binary64
    number and without truncating it, to a running total; the triangle
    count of the document is the floor of that total.  With a single such
    primitive of 0, 1, 2, 3 or 4 indices this is the truncated quotient; and
    when every counted count is a multiple of three (and their sum is below
    2 ^ 53) it is the sum of the per-primitive quotients. *)
Theorem getModelStats_triangles_floor_of_sum (document : Document) :
  let counted := List.filter hasPosition (allPrimitives document) in
  triangles (getModelStats document)
  = Math_floor
      (fold_left add
         (map (fun p => div (of_Z (triangleBasis p)) (of_Z 3)) counted)
         (of_Z 0))
  /\ Forall
       (fun i => triangles (getModelStats (document_of_primitives [indexed 4 i]))
                 = of_Z (i / 3))
       [0; 1; 2; 3; 4]
  /\ (Forall (fun p => 0 <= triangleBasis p /\ triangleBasis p mod 3 = 0) counted ->
      sum_Z (map triangleBasis counted) < 2 ^ 53 ->
      triangles (getModelStats document)
      = of_Z (sum_Z (map spec_primitive_triangles counted))).
Proof.
  intros counted.
  destruct (getModelStats_totals document) as [_ Htri]. fold counted in Htri.
  split; [exact Htri |].
  split; [repeat constructor; vm_compute; reflexivity |].
  intros Hall Hsum. rewrite Htri.
  destruct (thirds_exact (map triangleBasis counted)) as [Hfold Hrange].
  - apply List.Forall_map. exact Hall.
  - exact Hsum.
  - rewrite (map_map triangleBasis (fun b => div (of_Z b) (of_Z 3))) in Hfold.
    rewrite (map_map triangleBasis (fun b => b / 3)) in Hfold, Hrange.
    change (fun x : Primitive => triangleBasis x / 3)
      with spec_primitive_triangles in Hfold, Hrange.
    rewrite Hfold. apply Math_floor_of_Z. exact Hrange.
Qed.

(** * Further properties *)

(** ** The format validator, byte by byte *)

Lemma byte_of_value (b : Byte.byte) (v : N) (c : Byte.byte) :
  Byte.of_N v = Some c -> Z.of_N (Byte.to_N b) = Z.of_N v -> b = c.
Proof.
  intros Hc Hv. apply N2Z.inj in Hv.
  pose proof (Byte.of_to_N b) as Hb. rewrite Hv, Hc in Hb. congruence.
Qed.

Lemma isValidGLB_starts_glTF (buffer : bytes) :
  isValidGLB buffer = true
  <-> exists rest, buffer = Byte.x67 :: Byte.x6c :: Byte.x54 :: Byte.x46 :: rest.
Proof.
  split.
  - intros Hv.
    destruct buffer as [|b0 [|b1 [|b2 [|b3 rest]]]];
      try (unfold isValidGLB, getUint32_le in Hv; cbn [skipn] in Hv; discriminate).
    unfold isValidGLB in Hv. rewrite getUint32_le_value in Hv.
    apply Z.eqb_eq in Hv. unfold GLB_MAGIC in Hv.
    pose proof (byte_value_range b0). pose proof (byte_value_range b1).
    pose proof (byte_value_range b2). pose proof (byte_value_range b3).
    assert (H0' : Z.of_N (Byte.to_N b0) = Z.of_N 103) by (cbn; lia).
    assert (H1' : Z.of_N (Byte.to_N b1) = Z.of_N 108) by (cbn; lia).
    assert (H2' : Z.of_N (Byte.to_N b2) = Z.of_N 84) by (cbn; lia).
    assert (H3' : Z.of_N (Byte.to_N b3) = Z.of_N 70) by (cbn; lia).
    exists rest.
    rewrite (byte_of_value b0 103 Byte.x67 eq_refl H0').
    rewrite (byte_of_value b1 108 Byte.x6c eq_refl H1').
    rewrite (byte_of_value b2 84 Byte.x54 eq_refl H2').
    rewrite (byte_of_value b3 70 Byte.x46 eq_refl H3').
    reflexivity.
  - intros [rest ->]. reflexivity.
Qed.

(** X1. A buffer passes the format check exactly when it begins with the
    four ASCII bytes of "glTF" (0x67 0x6C 0x54 0x46), as the comment next to
    the magic number says; what follows the fourth byte is never looked at,
    so appending data to a buffer of four bytes or more does not change the
    answer. *)
Theorem isValidGLB_iff_glTF (buffer : bytes) :
  (isValidGLB buffer = true
   <-> exists rest, buffer = Byte.x67 :: Byte.x6c :: Byte.x54 :: Byte.x46 :: rest)
  /\ (forall more, (4 <= length buffer)%nat ->
        isValidGLB (buffer ++ more) = isValidGLB buffer).
Proof.
  split; [apply isValidGLB_starts_glTF |].
  intros more Hlen.
  destruct buffer as [|b0 [|b1 [|b2 [|b3 rest]]]]; cbn [length] in Hlen; try lia.
  reflexivity.
Qed.

(** ** Ranges of the pass parameters *)

(** X2. For every level the slider can give (1 and above), positions and
    texture coordinates are quantized to 10..15 bits, and normals, colours
    and generic attributes to 9..15 bits: the floor of 8 bits is never what
    decides, and the two classes differ (10 against 9 bits) only from
    level 7 on. *)
Theorem dracoOptions_ranges (settings : OptimizationSettings) :
  1 <= level (dracoCompression settings) ->
  let o := dracoOptions settings in
  let l := level (dracoCompression settings) in
  10 <= quantizePosition o <= 15
  /\ 9 <= quantizeNormal o <= 15
  /\ quantizeNormal o = 16 - Z.min l 7
  /\ quantizeTexcoord o = quantizePosition o
  /\ quantizeColor o = quantizeNormal o
  /\ quantizeGeneric o = quantizeNormal o
  /\ (quantizePosition o <> quantizeNormal o <-> 7 <= l).
Proof.
  intros Hl. cbv zeta. unfold dracoOptions.
  cbn [quantizePosition quantizeNormal quantizeTexcoord quantizeColor quantizeGeneric].
  lia.
Qed.

Lemma dracoOptions_ranges_witness :
  10 <= quantizePosition (dracoOptions default_settings) <= 15
  /\ quantizeNormal (dracoOptions default_settings) = 11.
Proof.
  pose proof (dracoOptions_ranges default_settings) as H.
  cbv zeta in H. destruct H as (Hp & _ & Hn & _).
  - cbn. lia.
  - split; [exact Hp | exact Hn].
Defined.

Lemma in_band_cases (P : Z -> Prop) :
  Forall P (map Z.of_nat (seq 1 79)) -> forall md, 0 < md < 80 -> P md.
Proof.
  intros Hall md Hmd. rewrite List.Forall_forall in Hall. apply Hall.
  apply in_map_iff. exists (Z.to_nat md). split; [lia |].
  apply in_seq. lia.
Qed.

(** X3. Inside the band [0 < meshDecimation < 80] the simplification ratio
    is [1 - meshDecimation / 100 * 0.7] itself, between 0.447 and 0.993:
    the floor of 0.3 never applies, so the simplifier is never asked to
    remove more than 55.3 % of the triangles; and a larger setting never
    gives a larger ratio. *)
Theorem simplifyRatio_in_band (settings : OptimizationSettings) :
  0 < meshDecimation settings < 80 ->
  let md := meshDecimation settings in
  simplifyRatio settings
  = sub (of_Z 1) (mul (div (of_Z md) (of_Z 100)) (lit 7 10))
  /\ leb (lit 447 1000) (simplifyRatio settings) = true
  /\ leb (simplifyRatio settings) (lit 993 1000) = true
  /\ leb (simplifyRatio (with_decimation settings (md + 1))) (simplifyRatio settings)
     = true.
Proof.
  intros Hband. cbv zeta.
  set (r := fun md => Math_max (lit 3 10)
                (sub (of_Z 1) (mul (div (of_Z md) (of_Z 100)) (lit 7 10)))).
  change (simplifyRatio settings) with (r (meshDecimation settings)).
  change (simplifyRatio (with_decimation settings (meshDecimation settings + 1)))
    with (r (meshDecimation settings + 1)).
  revert Hband. generalize (meshDecimation settings). apply in_band_cases.
  subst r. cbv beta.
  repeat (constructor; [vm_compute; repeat split; reflexivity |]). constructor.
Qed.

Lemma simplifyRatio_in_band_witness :
  leb (lit 447 1000) (simplifyRatio default_settings) = true
  /\ leb (simplifyRatio default_settings) (lit 993 1000) = true.
Proof.
  pose proof (simplifyRatio_in_band default_settings) as H.
  cbv zeta in H. destruct H as (_ & Hlo & Hhi & _).
  - cbn. lia.
  - split; [exact Hlo | exact Hhi].
Defined.

(** ** The analysis entry point *)

(** X4. [analyzeGLB] answers with the measured statistics of the decoded
    document exactly when the file passes the format check and the decoder
    returns; in every other case, in particular for an empty file or a file
    whose first byte is not [g] (a textual .gltf scene), it answers with
    numbers drawn at random that do not depend on the file. *)
Theorem analyzeGLB_measured_iff (env : Collaborators) (random : nat -> number)
  (file : File) :
  (forall stats,
     analyzeGLB env random file = Measured stats
     <-> isValidGLB (file_bytes file) = true
         /\ exists document,
              io_readBinary env (file_bytes file) = Ok document
              /\ stats = getModelStats document)
  /\ (isValidGLB (file_bytes file) = false
      \/ (exists e, io_readBinary env (file_bytes file) = Throw e) ->
      analyzeGLB env random file
      = analyzeGLB env random {| file_name := ""; file_bytes := [] |})
  /\ (forall b rest,
        file_bytes file = b :: rest -> b <> Byte.x67 ->
        analyzeGLB env random file
        = analyzeGLB env random {| file_name := ""; file_bytes := [] |})
  /\ (forall stats,
        analyzeGLB env random {| file_name := ""; file_bytes := [] |}
        <> Measured stats).
Proof.
  assert (Hbad : isValidGLB (file_bytes file) = false ->
                 analyzeGLB env random file
                 = analyzeGLB env random {| file_name := ""; file_bytes := [] |}).
  { intros H. unfold analyzeGLB. rewrite H. reflexivity. }
  split; [| split; [| split]].
  - intros stats. unfold analyzeGLB.
    destruct (isValidGLB (file_bytes file)); cbn [negb].
    + destruct (io_readBinary env (file_bytes file)) as [d | e].
      * split.
        -- intros [= <-]. eauto.
        -- intros (_ & d' & [= <-] & ->). reflexivity.
      * split; [discriminate | intros (_ & d' & [=] & _)].
    + split; [discriminate | intros [[=] _]].
  - intros [H | [e He]]; [now apply Hbad |].
    unfold analyzeGLB. rewrite He.
    destruct (isValidGLB (file_bytes file)); reflexivity.
  - intros b rest Hbytes Hb. apply Hbad.
    destruct (isValidGLB (file_bytes file)) eqn:Hv; [| reflexivity].
    apply isValidGLB_starts_glTF in Hv as [rest' Hv]. congruence.
  - intros stats. discriminate.
Qed.

(** ** Completed runs of the single-file entry point *)

Lemma optimizeGLB_body_ok (env : Collaborators) (file : File)
  (settings : OptimizationSettings) (log l : list ProgressEvent)
  (r : OptimizationResult) :
  optimizeGLB_body env file settings log = (l, Ok r) ->
  isValidGLB (file_bytes file) = true
  /\ isValidGLB (optimizedBlob r) = true
  /\ originalSize (stats r) = file_size file
  /\ optimizedSize (stats r) = blob_size (optimizedBlob r)
  /\ reduction (stats r)
     = calculateReduction (file_size file) (blob_size (optimizedBlob r))
  /\ (exists d d1 d2,
        io_readBinary env (file_bytes file) = Ok d
        /\ document_transform env (meshTransforms settings) d = (d1, None)
        /\ document_transform env [dedup; prune]
             (after_draco env settings (textureStage d1 settings)) = (d2, None)
        /\ io_writeBinary env d2 = Ok (optimizedBlob r)
        /\ modelInfo r = InfoBeforeAfter (getModelStats d) (getModelStats d2))
  /\ exists l', l = log ++ l'
                /\ map percent l' = checkpoints settings
                /\ List.last l' {| percent := 0; stage := idle |}
                   = {| percent := 100; stage := completed |}.
Proof.
  unfold checkpoints, after_draco. run_async. step_async.
  repeat (case_step; step_async); intros [= <- <-];
    cbn [optimizedBlob stats modelInfo originalSize optimizedSize reduction] in *;
    try congruence.
  all: split; [reflexivity |].
  all: split; [reflexivity |].
  all: split; [reflexivity |].
  all: split; [reflexivity |].
  all: split; [reflexivity |].
  all: split; [eauto 10 |].
  all: rewrite <- ?app_assoc; eexists; split; [reflexivity |].
  all: cbn [app map percent List.last]; split; reflexivity.
Qed.

Lemma optimizeGLB_returns (env : Collaborators) (file : File)
  (settings : OptimizationSettings) (log : list ProgressEvent) :
  exists l r,
    optimizeGLB env file settings log = (l, Ok r)
    /\ ((exists l0, optimizeGLB_body env file settings log = (l0, Ok r) /\ l = l0)
        \/ (exists l0 e,
              optimizeGLB_body env file settings log = (l0, Throw e)
              /\ safeFallbackOptimization file settings l0 = (l, Ok r))).
Proof.
  unfold optimizeGLB, try_catch.
  destruct (optimizeGLB_body env file settings log) as [l0 [r | e]] eqn:Hbody.
  - exists l0, r. split; [reflexivity |]. left. eauto.
  - destruct (safeFallbackOptimization_run file settings l0) as (r & Hrun & _).
    eexists _, r. split; [exact Hrun |]. right. eauto.
Qed.

(** X5. The single-file entry point never turns a well-formed container
    into an ill-formed one, nor the reverse: the bytes it returns pass the
    format check exactly when the input bytes do, whatever the codec and the
    passes do. *)
Theorem optimizeGLB_preserves_validity (env : Collaborators) (file : File)
  (settings : OptimizationSettings) (log : list ProgressEvent) :
  exists l r,
    optimizeGLB env file settings log = (l, Ok r)
    /\ isValidGLB (optimizedBlob r) = isValidGLB (file_bytes file).
Proof.
  destruct (optimizeGLB_returns env file settings log)
    as (l & r & Hrun & [(l0 & Hbody & _) | (l0 & e & Hbody & Hfall)]).
  - exists l, r. split; [exact Hrun |].
    destruct (optimizeGLB_body_ok _ _ _ _ _ _ Hbody) as (Hin & Hout & _).
    now rewrite Hin, Hout.
  - exists l, r. split; [exact Hrun |].
    destruct (safeFallbackOptimization_run file settings l0) as (r' & Hr' & Hblob & _).
    rewrite Hr' in Hfall. injection Hfall as _ <-. now rewrite Hblob.
Qed.

(** X6. Every single-file run ends its progress reports at 100 %: a
    completed run reports [(100, completed)] last, a run that fell back
    reports [(100, finalizing)] last and never reports the stage
    [completed]. *)
Theorem optimizeGLB_last_progress (env : Collaborators) (file : File)
  (settings : OptimizationSettings) :
  let run := optimizeGLB env file settings [] in
  let final := List.last (fst run) {| percent := 0; stage := idle |} in
  percent final = 100
  /\ ((exists l r, optimizeGLB_body env file settings [] = (l, Ok r))
      -> final = {| percent := 100; stage := completed |})
  /\ (StepThrows env file settings ->
      final = {| percent := 100; stage := finalizing |}
      /\ ~ In completed (map stage (fst run))).
Proof.
  cbv zeta.
  assert (Hcases :
    (exists l r, optimizeGLB_body env file settings [] = (l, Ok r)
                 /\ optimizeGLB env file settings [] = (l, Ok r))
    \/ (exists l e r, optimizeGLB_body env file settings [] = (l, Throw e)
                      /\ optimizeGLB env file settings []
                         = (l ++ [ {| percent := 25; stage := analyzing |};
                                   {| percent := 50; stage := optimizing |};
                                   {| percent := 75; stage := compressing |};
                                   {| percent := 100; stage := finalizing |} ], Ok r))).
  { unfold optimizeGLB, try_catch.
    destruct (optimizeGLB_body env file settings []) as [l [r | e]] eqn:Hbody.
    - left. eauto.
    - right. destruct (safeFallbackOptimization_run file settings l) as (r & Hrun & _).
      eauto 10. }
  assert (Hnone : forall l e,
            optimizeGLB_body env file settings [] = (l, Throw e) ->
            ~ In completed (map stage l)).
  { intros l e. run_async. step_async.
    repeat (case_step; step_async); intros [= <- <-] + intros [=];
      cbn [app map stage In]; intuition discriminate. }
  destruct Hcases as [(l & r & Hbody & Hrun) | (l & e & r & Hbody & Hrun)];
    rewrite Hrun; cbn [fst].
  - destruct (optimizeGLB_body_ok _ _ _ _ _ _ Hbody)
      as (_ & _ & _ & _ & _ & _ & l' & -> & _ & Hlast).
    cbn [app] in *. rewrite Hlast. split; [reflexivity | split; [reflexivity |]].
    intros Hstep. apply (optimizeGLB_body_throws_iff env file settings []) in Hstep
      as (l0 & e0 & Hthrow). congruence.
  - change [ {| percent := 25; stage := analyzing |};
             {| percent := 50; stage := optimizing |};
             {| percent := 75; stage := compressing |};
             {| percent := 100; stage := finalizing |} ]
      with ([ {| percent := 25; stage := analyzing |};
              {| percent := 50; stage := optimizing |};
              {| percent := 75; stage := compressing |} ]
            ++ [ {| percent := 100; stage := finalizing |} ]).
    rewrite app_assoc, List.last_last. split; [reflexivity | split].
    + intros (l0 & r0 & Hok). congruence.
    + intros _. split; [reflexivity |].
      rewrite !map_app, !in_app_iff. intros [[Hin | Hin] | Hin].
      * exact (Hnone l e Hbody Hin).
      * cbn in Hin. intuition discriminate.
      * cbn in Hin. intuition discriminate.
Qed.

(** ** What the settings do not influence *)

(** X7. In the single-file entry point the texture tiers [medium] and [low]
    run the same pipeline: the progress reports are the same, and so are the
    returned bytes, the model statistics and the original size.  When no
    step throws, the two results are identical.  When a step throws, the
    fallback tells them apart: the reduction it reports for [low] is five
    points above the one for [medium] (5 against 0, or 15 against 10).
    [wireframeMode] changes nothing at all, fallback included. *)
Theorem optimizeGLB_quality_tiers (env : Collaborators) (file : File)
  (settings : OptimizationSettings) (log : list ProgressEvent) :
  let run_medium := optimizeGLB env file (with_quality settings medium) log in
  let run_low := optimizeGLB env file (with_quality settings low) log in
  let base := if 50 <? meshDecimation settings then 10 else 0 in
  fst run_medium = fst run_low
  /\ (exists r_medium r_low,
        snd run_medium = Ok r_medium /\ snd run_low = Ok r_low
        /\ optimizedBlob r_medium = optimizedBlob r_low
        /\ modelInfo r_medium = modelInfo r_low
        /\ originalSize (stats r_medium) = originalSize (stats r_low)
        /\ (~ StepThrows env file (with_quality settings medium) ->
            r_medium = r_low)
        /\ (StepThrows env file (with_quality settings medium) ->
            reduction (stats r_medium) = of_Z base
            /\ reduction (stats r_low) = of_Z (base + 5)
            /\ r_medium <> r_low))
  /\ (StepThrows env file (with_quality settings medium)
      <-> StepThrows env file (with_quality settings low))
  /\ forall w,
       optimizeGLB env file (with_wireframe settings w) log
       = optimizeGLB env file settings log.
Proof.
  intros run_medium run_low base.
  assert (Hbody :
    optimizeGLB_body env file (with_quality settings low) log
    = optimizeGLB_body env file (with_quality settings medium) log)
    by reflexivity.
  assert (Hsteps : StepThrows env file (with_quality settings medium)
                   <-> StepThrows env file (with_quality settings low)).
  { rewrite <- (optimizeGLB_body_throws_iff env file (with_quality settings medium) log).
    rewrite <- (optimizeGLB_body_throws_iff env file (with_quality settings low) log).
    rewrite Hbody. reflexivity. }
  assert (Hthrows := optimizeGLB_body_throws_iff env file
                       (with_quality settings medium) log).
  subst run_medium run_low. unfold optimizeGLB, try_catch. rewrite Hbody.
  destruct (optimizeGLB_body env file (with_quality settings medium) log)
    as [l0 [r | e]] eqn:Hrun.
  - split; [reflexivity |]. split; [| split; [exact Hsteps | reflexivity]].
    exists r, r. cbn [snd]. do 5 (split; [reflexivity |]).
    split; [reflexivity |].
    intros Hstep. apply Hthrows in Hstep as (l & e & Hstep). discriminate.
  - split; [reflexivity |]. split; [| split; [exact Hsteps | reflexivity]].
    unfold safeFallbackOptimization, bind, onProgress, ret. cbn [snd].
    eexists _, _. split; [reflexivity |]. split; [reflexivity |].
    cbn [optimizedBlob modelInfo stats originalSize reduction].
    do 3 (split; [reflexivity |]).
    split; [intros Hno; exfalso; apply Hno, Hthrows; eauto |].
    intros _. unfold reductionFactor, with_quality, base.
    cbn [meshDecimation textureQuality].
    destruct (50 <? meshDecimation settings);
      (split; [vm_compute; reflexivity |]);
      (split; [vm_compute; reflexivity |]);
      intros Heq; apply (f_equal (fun r => reduction (stats r))) in Heq;
      vm_compute in Heq; discriminate.
Qed.

Lemma optimizeGLTFWithTextures_body_quality (env : Collaborators) (gltfFile : File)
  (textureFiles : list File) (settings : OptimizationSettings)
  (q : TextureQuality) (log : list ProgressEvent) :
  optimizeGLTFWithTextures_body env gltfFile textureFiles (with_quality settings q) log
  = optimizeGLTFWithTextures_body env gltfFile textureFiles settings log.
Proof.
  unfold optimizeGLTFWithTextures_body.
  unfold bind. destruct (onProgress 10 analyzing log) as [l0 [[] | e]]; [| reflexivity].
  destruct (await _ l0) as [l1 [j | e]]; [| reflexivity].
  destruct (await _ l1) as [l2 [d | e]]; [| reflexivity].
  destruct (onProgress 30 optimizing l2) as [l3 [[] | e]]; [| reflexivity].
  change (conservativeMeshOptimization env d (with_quality settings q))
    with (conservativeMeshOptimization env d settings).
  destruct (conservativeMeshOptimization env d settings l3) as [l4 [d1 | e]];
    [| reflexivity].
  destruct (onProgress 60 compressing l4) as [l5 [[] | e]]; [| reflexivity].
  rewrite !optimizeExternalTextures_id. reflexivity.
Qed.

(** X8. In the multi-file flow the texture quality setting has no effect
    whatever: for any two tiers the entry point makes the same progress
    reports and returns the same bundle or throws the same exception. *)
Theorem optimizeGLTFWithTextures_ignores_quality (env : Collaborators)
  (gltfFile : File) (textureFiles : list File) (settings : OptimizationSettings)
  (q1 q2 : TextureQuality) (log : list ProgressEvent) :
  optimizeGLTFWithTextures env gltfFile textureFiles (with_quality settings q1) log
  = optimizeGLTFWithTextures env gltfFile textureFiles (with_quality settings q2) log.
Proof.
  rewrite !optimizeGLTFWithTextures_rethrows.
  rewrite !optimizeGLTFWithTextures_body_quality. reflexivity.
Qed.

(** X9. The progress reports of the multi-file entry point never decrease,
    whether it returns or throws; when it returns they are exactly 10, 30,
    60, 90, 100, and when it throws 100 is never reported. *)
Theorem optimizeGLTFWithTextures_progress (env : Collaborators) (gltfFile : File)
  (textureFiles : list File) (settings : OptimizationSettings) :
  let run := optimizeGLTFWithTextures env gltfFile textureFiles settings [] in
  StronglySorted Z.le (map percent (fst run))
  /\ ((exists r, snd run = Ok r) -> map percent (fst run) = [10; 30; 60; 90; 100])
  /\ ((exists e, snd run = Throw e) -> ~ In 100 (map percent (fst run))).
Proof.
  cbv zeta. rewrite optimizeGLTFWithTextures_rethrows.
  run_async. step_async.
  repeat (case_step; step_async); cbn [map app percent fst snd].
  all: split; [repeat constructor; lia |].
  all: split; [intros [r' Hr']; first [reflexivity | discriminate] |].
  all: intros [e' He']; try discriminate; cbn [In]; lia.
Qed.

(** ** Pruning and the statistics *)

Lemma Document_eq (d d' : Document) :
  listScenes d = listScenes d' -> listMeshes d = listMeshes d' ->
  listMaterials d = listMaterials d' -> listTextures d = listTextures d' ->
  listAnimations d = listAnimations d' -> d = d'.
Proof. destruct d, d'; cbn; intros; subst; reflexivity. Qed.

Lemma filter_filter_same {A : Type} (f : A -> bool) (l : list A) :
  List.filter f (List.filter f l) = List.filter f l.
Proof.
  induction l as [|x l IH]; cbn [List.filter]; [reflexivity |].
  destruct (f x) eqn:E; cbn [List.filter]; [rewrite E, IH |]; auto.
Qed.

Lemma filter_length_le {A : Type} (f : A -> bool) (l : list A) :
  (length (List.filter f l) <= length l)%nat
  /\ (length (List.filter f l) = length l <-> forall x, In x l -> f x = true).
Proof.
  induction l as [|x l [IHle IHeq]]; cbn [List.filter length In].
  - split; [lia | split; [intros _ x [] | reflexivity]].
  - destruct (f x) eqn:E; cbn [length]; split; try lia.
    + split.
      * intros H y [<- | Hy]; [exact E | apply IHeq; [lia | exact Hy]].
      * intros H. f_equal. apply IHeq. auto.
    + split; [lia |]. intros H. specialize (H x (or_introl eq_refl)). congruence.
Qed.

(** X10. The embedded-safe texture pass is idempotent: run on its own
    output, with any settings, it changes nothing. *)
Theorem safeTextureOptimization_idempotent (document : Document)
  (settings settings' : OptimizationSettings) :
  safeTextureOptimization (safeTextureOptimization document settings) settings'
  = safeTextureOptimization document settings.
Proof.
  destruct (safeTextureOptimization_textures document settings)
    as (HT & HM & HS & HMe & HA).
  destruct (safeTextureOptimization_textures
              (safeTextureOptimization document settings) settings')
    as (HT' & HM' & HS' & HMe' & HA').
  apply Document_eq; try assumption.
  rewrite HT', HM, HT. apply filter_filter_same.
Qed.

(** X11. Pruning the dead textures leaves every statistic of the model
    inspector as it was except the texture count, which can only go down
    and stays the same exactly when every texture of the document is
    referenced by a material. *)
Theorem getModelStats_after_pruning (document : Document)
  (settings : OptimizationSettings) :
  let before := getModelStats document in
  let after := getModelStats (safeTextureOptimization document settings) in
  vertices after = vertices before
  /\ triangles after = triangles before
  /\ scenes after = scenes before
  /\ meshes after = meshes before
  /\ materials after = materials before
  /\ animations after = animations before
  /\ textures after <= textures before
  /\ (textures after = textures before
      <-> forall texture, In texture (listTextures document) ->
                          referenced document texture).
Proof.
  cbv zeta.
  destruct (safeTextureOptimization_textures document settings)
    as (HT & HM & HS & HMe & HA).
  destruct (getModelStats_totals document) as [Hv Ht].
  destruct (getModelStats_totals (safeTextureOptimization document settings))
    as [Hv' Ht'].
  unfold allPrimitives in Hv', Ht'. rewrite HMe in Hv', Ht'.
  fold (allPrimitives document) in Hv', Ht'.
  split; [congruence | split; [congruence |]].
  unfold getModelStats.
  destruct (fold_left countMesh (listMeshes document) (of_Z 0, of_Z 0)) as [v t].
  destruct (fold_left countMesh
              (listMeshes (safeTextureOptimization document settings))
              (of_Z 0, of_Z 0)) as [v' t'].
  cbn [scenes meshes materials animations textures].
  rewrite HS, HMe, HM, HA, HT.
  repeat (split; [reflexivity |]).
  set (used := fold_left markMaterial (listMaterials document) ∅).
  destruct (filter_length_le (fun t0 => bool_decide (tex_id t0 ∈ used))
              (listTextures document)) as [Hle Heq].
  split; [lia |].
  rewrite Nat2Z.inj_iff, Heq.
  split; intros H texture Hin; specialize (H texture Hin).
  - apply bool_decide_eq_true in H. unfold used in H.
    apply elem_of_usedTextures in H as [Hemp | Href]; [| exact Href].
    exfalso. exact (not_elem_of_empty (C := gset nat) _ Hemp).
  - apply bool_decide_eq_true. unfold used. apply elem_of_usedTextures.
    right. exact H.
Qed.

(** X12. The vertex total is exact: as long as the POSITION counts of a
    document sum to less than 2 ^ 53, the binary64 accumulation returns
    their integer sum. *)
Theorem getModelStats_vertices_exact (document : Document) :
  let counted := List.filter hasPosition (allPrimitives document) in
  Forall (fun p => 0 <= vertexBasis p) counted ->
  sum_Z (map vertexBasis counted) < 2 ^ 53 ->
  vertices (getModelStats document) = of_Z (sum_Z (map vertexBasis counted)).
Proof.
  intros counted Hnn Hsum.
  destruct (getModelStats_totals document) as [Hv _]. fold counted in Hv.
  rewrite Hv, <- (map_map vertexBasis of_Z).
  rewrite fold_add_of_Z; [reflexivity | lia | | lia].
  apply List.Forall_map. exact Hnn.
Qed.

Lemma getModelStats_vertices_exact_witness :
  vertices (getModelStats
    (document_of_primitives [indexed 4 6; indices_only 300; unindexed 3]))
  = of_Z 7.
Proof.
  apply (getModelStats_vertices_exact
    (document_of_primitives [indexed 4 6; indices_only 300; unindexed 3])).
  - repeat constructor; cbn; lia.
  - reflexivity.
Defined.

(** ** What the fallback reports *)

(** X13. The safe fallback always returns.  It reports the progress
    25, 50, 75, 100 and returns the input bytes, so the blob it returns has
    exactly the original size; the reduction it reports depends on the
    settings alone: 10 points when [meshDecimation > 50] plus 5 points when
    the texture quality is [low] (0, 5, 10 or 15 %), with the model
    statistics marked as not available. *)
Theorem safeFallbackOptimization_report (file : File)
  (settings : OptimizationSettings) (log : list ProgressEvent) :
  exists l r,
    safeFallbackOptimization file settings log = (l, Ok r)
    /\ map percent l = map percent log ++ [25; 50; 75; 100]
    /\ optimizedBlob r = file_bytes file
    /\ blob_size (optimizedBlob r) = originalSize (stats r)
    /\ reduction (stats r)
       = of_Z ((if 50 <? meshDecimation settings then 10 else 0)
               + (if decide (textureQuality settings = low) then 5 else 0))
    /\ modelInfo r = InfoNotAvailable.
Proof.
  destruct (safeFallbackOptimization_run file settings log)
    as (r & Hrun & Hblob & Horig & Hopt & Hinfo).
  eexists _, r. split; [exact Hrun |].
  split; [now rewrite map_app |].
  split; [exact Hblob |].
  split; [rewrite Hblob, Horig; reflexivity |].
  split; [| exact Hinfo].
  unfold safeFallbackOptimization, bind, onProgress, ret in Hrun.
  injection Hrun as _ <-. cbn [stats reduction]. unfold reductionFactor.
  destruct (50 <? meshDecimation settings);
    destruct (decide (textureQuality settings = low));
    vm_compute; reflexivity.
Qed.

(** ** The caller of the entry points *)

Lemma sub_nan_r (x : number) : sub x S754_nan = S754_nan.
Proof. destruct x; reflexivity. Qed.

Lemma optimizeGLTFWithTextures_ok_info (env : Collaborators) (gltfFile : File)
  (textureFiles : list File) (settings : OptimizationSettings)
  (log l : list ProgressEvent) (r : OptimizationResult) :
  optimizeGLTFWithTextures env gltfFile textureFiles settings log = (l, Ok r) ->
  exists s, modelInfo r = InfoSingle s.
Proof.
  rewrite optimizeGLTFWithTextures_rethrows. run_async. step_async.
  repeat (case_step; step_async); intros [= <- <-]; cbn [modelInfo]; eauto.
Qed.

(** X14. A click on "Optimize" for a lone GLB file never ends in the error
    alert.  When a step of the pipeline throws, the application shows the
    input bytes as the optimized file with the polygon and texture counts
    ['N/A'], and the numbers of polygons reduced and textures optimized that
    it hands to the user statistics are NaN. *)
Theorem handleOptimize_glb_fallback (env : Collaborators) (uploadedFile : FileData)
  (settings : OptimizationSettings) :
  (forall text state,
     handleOptimize env (Some uploadedFile) [] settings <> Alerted text state)
  /\ (StepThrows env (fd_file uploadedFile) settings ->
      exists optimized result update,
        handleOptimize env (Some uploadedFile) [] settings
        = Optimized optimized result update
            {| isProcessing := false; ps_progress := 100; ps_stage := completed |}
        /\ fd_optimizedBlob optimized = Some (file_bytes (fd_file uploadedFile))
        /\ polyCount optimized = CountNA
        /\ textureCount optimized = CountNA
        /\ polygonsReduced update = S754_nan
        /\ texturesOptimized update = S754_nan).
Proof.
  unfold handleOptimize. cbn [length Z.of_nat Z.ltb Z.compare].
  destruct (optimizeGLB_returns env (fd_file uploadedFile) settings [])
    as (l & r & Hrun & Hhow).
  rewrite Hrun. cbn [snd]. split; [discriminate |].
  intros Hstep.
  apply (optimizeGLB_body_throws_iff env (fd_file uploadedFile) settings []) in Hstep
    as (l0 & e0 & Hthrow).
  destruct Hhow as [(l1 & Hok & _) | (l1 & e1 & _ & Hfall)]; [congruence |].
  destruct (safeFallbackOptimization_run (fd_file uploadedFile) settings l1)
    as (r' & Hr' & Hblob & _ & _ & Hinfo).
  rewrite Hr' in Hfall. injection Hfall as _ Hr. subst r'.
  eexists _, r, _. split; [reflexivity |].
  unfold statsUpdate, optimizedFileData.
  cbn [fd_optimizedBlob polyCount textureCount polygonsReduced texturesOptimized].
  rewrite Hinfo, Hblob.
  cbn [optimized_triangles optimized_textures count_or count_truthy ToNumber].
  rewrite !sub_nan_r. repeat split; reflexivity.
Qed.

(** X15. A click on "Optimize" for a GLTF project (one or more texture
    files) shows the error alert with the message of the exception when the
    multi-file entry point throws.  When it returns, the polygon count shown
    for the optimized file is never the measured one: the bundle has no
    field [optimized], so the count is the estimate
    [floor(polyCount * (1 - meshDecimation / 100))]. *)
Theorem handleOptimize_gltf (env : Collaborators) (uploadedFile : FileData)
  (textureFile : File) (textureFiles : list File)
  (settings : OptimizationSettings) :
  let files := textureFile :: textureFiles in
  let outcome := handleOptimize env (Some uploadedFile) files settings in
  match snd (optimizeGLTFWithTextures env (fd_file uploadedFile) files settings []) with
  | Throw e =>
      outcome
      = Alerted (alert_text (error_message e))
          {| isProcessing := false; ps_progress := 0; ps_stage := idle |}
  | Ok result =>
      exists optimized update state,
        outcome = Optimized optimized result update state
        /\ fd_optimizedBlob optimized = Some (optimizedBlob result)
        /\ polyCount optimized
           = CountNumber
               (Math_floor
                  (mul (ToNumber (polyCount uploadedFile))
                       (sub (of_Z 1)
                            (div (of_Z (meshDecimation settings)) (of_Z 100)))))
  end.
Proof.
  cbv zeta. unfold handleOptimize.
  replace (0 <? Z.of_nat (length (textureFile :: textureFiles))) with true
    by (symmetry; apply Z.ltb_lt; cbn [length]; lia).
  destruct (optimizeGLTFWithTextures env (fd_file uploadedFile)
              (textureFile :: textureFiles) settings []) as [l [r | e]] eqn:Hrun;
    cbn [snd]; [| reflexivity].
  destruct (optimizeGLTFWithTextures_ok_info _ _ _ _ _ _ _ Hrun) as [s Hs].
  eexists _, _, _. split; [reflexivity |].
  unfold optimizedFileData. cbn [fd_optimizedBlob polyCount]. rewrite Hs.
  split; reflexivity.
Qed.

(** ** The reduction percentage *)

Lemma sub_same (n : Z) : 0 < n < 2 ^ 53 -> sub (of_Z n) (of_Z n) = S754_zero false.
Proof.
  intros Hn. destruct (of_Z_pos n Hn) as (m & -> & _).
  unfold sub, SFsub. rewrite Z.min_id, shl_align_none by lia.
  cbn [fst cond_Zopp]. rewrite Z.sub_diag. reflexivity.
Qed.

Lemma calculateReduction_same (n : Z) :
  0 < n < 2 ^ 53 -> calculateReduction (of_Z n) (of_Z n) = S754_zero false.
Proof.
  intros Hn. unfold calculateReduction. rewrite (sub_same n Hn).
  destruct (of_Z_pos n Hn) as (m & -> & _). reflexivity.
Qed.

(** X16. When a single-file run completes and the encoder's output has as
    many bytes as the input, the reported reduction is 0 (a completed run
    never divides by a zero size: its input has at least the four bytes of
    the magic number). *)
Theorem optimizeGLB_reduction_zero (env : Collaborators) (file : File)
  (settings : OptimizationSettings) (log l : list ProgressEvent)
  (r : OptimizationResult) :
  Z.of_nat (length (file_bytes file)) < 2 ^ 53 ->
  optimizeGLB_body env file settings log = (l, Ok r) ->
  length (optimizedBlob r) = length (file_bytes file) ->
  (4 <= length (file_bytes file))%nat
  /\ optimizeGLB env file settings log = (l, Ok r)
  /\ reduction (stats r) = S754_zero false.
Proof.
  intros Hsize Hbody Hlen.
  destruct (optimizeGLB_body_ok _ _ _ _ _ _ Hbody) as (Hin & _ & _ & _ & Hred & _).
  apply isValidGLB_starts_glTF in Hin as [rest Hin].
  assert (H4 : (4 <= length (file_bytes file))%nat)
    by (rewrite Hin; cbn [length]; lia).
  split; [exact H4 | split].
  - unfold optimizeGLB, try_catch. rewrite Hbody. reflexivity.
  - rewrite Hred. unfold blob_size, file_size. rewrite Hlen.
    apply calculateReduction_same. lia.
Qed.

Lemma optimizeGLB_reduction_zero_witness :
  exists l r,
    optimizeGLB env_identity glb_file default_settings [] = (l, Ok r)
    /\ reduction (stats r) = S754_zero false.
Proof.
  destruct (optimizeGLB_body env_identity glb_file default_settings [])
    as [l [r | e]] eqn:Hbody; [| vm_compute in Hbody; discriminate].
  exists l, r.
  destruct (optimizeGLB_reduction_zero env_identity glb_file default_settings [] l r)
    as (_ & Hrun & Hred).
  - reflexivity.
  - exact Hbody.
  - vm_compute in Hbody. injection Hbody as _ <-. reflexivity.
  - split; [exact Hrun | exact Hred].
Defined.

(** ** File sizes on display *)

Lemma binary_round_aux_even (m : positive) (e : Z) :
  Zpos (digits2_pos m) = 53 -> -1073 <= e <= 971 ->
  binary_round_aux prec emax false (Zpos m~0) (e - 1) loc_Exact
  = S754_finite false m e.
Proof.
  intros Hd He. unfold binary_round_aux.
  rewrite (shr_fexp_some (m~0) (e - 1) 1%nat); [| | lia].
  2:{ cbn [digits2_pos]. rewrite Pos2Z.inj_succ, Hd.
      unfold fexp, SpecFloat.emin, prec, emax. change (Z.of_nat 1) with 1. lia. }
  cbn [Nat.iter nat_rect shr_1 shr_m loc_of_shr_record orb round_nearest_even].
  change (Z.of_nat 1) with 1. replace (e - 1 + 1) with e by lia.
  rewrite shr_fexp_none
    by (rewrite Hd; unfold fexp, SpecFloat.emin, prec, emax; lia).
  cbn [shr_record_of_loc shr_m].
  unfold prec, emax. destruct (Z.leb_spec e (1024 - 53)); [reflexivity | lia].
Qed.

(** Dividing a normal number by 1024 lowers its exponent by ten and keeps
    its mantissa. *)
Lemma div_1024 (m : positive) (e : Z) :
  Zpos (digits2_pos m) = 53 -> -1000 <= e <= 900 ->
  div (S754_finite false m e) (of_Z 1024) = S754_finite false m (e - 10).
Proof.
  intros Hd He.
  change (of_Z 1024) with (S754_finite false 4503599627370496 (-42)).
  unfold div, SFdiv, SFdiv_core_binary. cbn [xorb Zdigits2]. rewrite Hd.
  change (Zpos (digits2_pos 4503599627370496)) with 53.
  replace (Z.min (fexp prec emax (53 + e - (53 + -42))) (e - -42))
    with (e - 11) by (unfold fexp, SpecFloat.emin, prec, emax; lia).
  replace (e - -42 - (e - 11)) with 53 by lia.
  rewrite Z.shiftl_mul_pow2 by lia.
  assert (Hdiv : Z.div_eucl (Zpos m * 2 ^ 53) (Zpos 4503599627370496)
                 = (Zpos m~0, 0)).
  { rewrite (surjective_pairing (Z.div_eucl _ _)).
    change (fst (Z.div_eucl ?a ?b)) with (a / b).
    change (snd (Z.div_eucl ?a ?b)) with (a mod b).
    assert (E : Zpos m * 2 ^ 53 = Zpos m~0 * Zpos 4503599627370496).
    { rewrite (Pos2Z.inj_xO m). change (Zpos 4503599627370496) with (2 ^ 52).
      change (2 ^ 53) with (2 * 2 ^ 52). ring. }
    rewrite E, Z.div_mul, Z.mod_mul by lia. reflexivity. }
  rewrite Hdiv. change (new_location (Zpos 4503599627370496) 0) with loc_Exact.
  replace (e - 11) with (e - 10 - 1) by lia.
  apply binary_round_aux_even; [exact Hd | lia].
Qed.

Lemma leb_1024 (m : positive) (e : Z) :
  Zpos (digits2_pos m) = 53 ->
  leb (of_Z 1024) (S754_finite false m e) = (-42 <=? e).
Proof.
  intros Hd.
  change (of_Z 1024) with (S754_finite false 4503599627370496 (-42)).
  unfold leb, SFleb, SFcompare.
  destruct (Z.compare_spec (-42) e) as [E | E | E].
  - subst e. cbn [Z.leb Z.compare].
    change (Pos.compare_cont Eq 4503599627370496 m)
      with (Pos.compare 4503599627370496 m).
    destruct (digits2_pos_bounds m) as [Hlo _]. rewrite Hd in Hlo.
    change (2 ^ (53 - 1)) with (Zpos 4503599627370496) in Hlo.
    destruct (Pos.compare 4503599627370496 m) eqn:C; [reflexivity | reflexivity |].
    exfalso. apply Pos.compare_gt_iff in C.
    apply Pos2Z.pos_lt_pos in C. apply (Z.lt_irrefl (Zpos m)).
    eapply Z.lt_le_trans; [exact C | exact Hlo].
  - symmetry. apply Z.leb_le. lia.
  - symmetry. apply Z.leb_gt. lia.
Qed.

Lemma scaleFileSize_last (fuel : nat) (size : number) :
  scaleFileSize fuel size 3 = (size, 3%nat).
Proof.
  destruct fuel; cbn [scaleFileSize]; [reflexivity |].
  change (Nat.ltb 3 (length units - 1)) with false. now rewrite andb_false_r.
Qed.

Lemma scaleFileSize_normal (m : positive) (e : Z) (extra : nat) :
  Zpos (digits2_pos m) = 53 -> -52 <= e <= 0 ->
  let unitIndex :=
    if e <? -42 then 0%nat else if e <? -32 then 1%nat
    else if e <? -22 then 2%nat else 3%nat in
  scaleFileSize (3 + extra) (S754_finite false m e) 0
  = (S754_finite false m (e - 10 * Z.of_nat unitIndex), unitIndex).
Proof.
  intros Hd He. cbv zeta.
  change (3 + extra)%nat with (S (S (S extra))).
  cbn [scaleFileSize].
  change (Nat.ltb 0 (length units - 1)) with true.
  change (Nat.ltb 1 (length units - 1)) with true.
  change (Nat.ltb 2 (length units - 1)) with true.
  rewrite !andb_true_r, (leb_1024 m e Hd).
  destruct (Z.ltb_spec e (-42)) as [H1 | H1].
  { destruct (Z.leb_spec (-42) e); [lia |].
    change (Z.of_nat 0) with 0. now rewrite Z.mul_0_r, Z.sub_0_r. }
  destruct (Z.leb_spec (-42) e); [| lia].
  rewrite (div_1024 m e Hd) by lia. rewrite (leb_1024 m (e - 10) Hd).
  destruct (Z.ltb_spec e (-32)) as [H2 | H2].
  { destruct (Z.leb_spec (-42) (e - 10)); [lia | reflexivity]. }
  destruct (Z.leb_spec (-42) (e - 10)); [| lia].
  rewrite (div_1024 m (e - 10) Hd) by lia. rewrite (leb_1024 m (e - 10 - 10) Hd).
  destruct (Z.ltb_spec e (-22)) as [H3 | H3].
  { destruct (Z.leb_spec (-42) (e - 10 - 10)); [lia |].
    f_equal. f_equal. lia. }
  destruct (Z.leb_spec (-42) (e - 10 - 10)); [| lia].
  rewrite (div_1024 m (e - 10 - 10) Hd) by lia.
  rewrite scaleFileSize_last. f_equal. f_equal. lia.
Qed.

(** X17. [formatFileSize] on a byte count [n] below 2 ^ 53: the unit is B
    below 1024, KB below 1024², MB below 1024³ and GB from there on; the
    number handed to [toFixed] is [n / 1024 ^ unit] without any rounding
    (the mantissa of [n], its exponent lowered by ten per unit step); and
    the loop never needs more than its three turns. *)
Theorem formatFileSize_units (toFixed : number -> nat -> string) (n : Z) :
  0 < n < 2 ^ 53 ->
  let unitIndex :=
    if n <? 1024 then 0%nat else if n <? 1024 ^ 2 then 1%nat
    else if n <? 1024 ^ 3 then 2%nat else 3%nat in
  exists m e,
    of_Z n = S754_finite false m e
    /\ (forall extra,
          scaleFileSize (3 + extra) (of_Z n) 0
          = (S754_finite false m (e - 10 * Z.of_nat unitIndex), unitIndex))
    /\ formatFileSize toFixed (of_Z n)
       = (toFixed (S754_finite false m (e - 10 * Z.of_nat unitIndex)) 1%nat
          ++ " " ++ nth unitIndex units "")%string.
Proof.
  intros Hn. cbv zeta.
  destruct (of_Z_pos n Hn) as (m & E & _ & Hd).
  assert (HL : 0 <= Z.log2 n < 53)
    by (split; [apply Z.log2_nonneg | apply Z.log2_lt_pow2; lia]).
  exists m, (Z.log2 n - 52). split; [exact E |].
  assert (Hidx :
    (if n <? 1024 then 0%nat else if n <? 1024 ^ 2 then 1%nat
     else if n <? 1024 ^ 3 then 2%nat else 3%nat)
    = (if Z.log2 n - 52 <? -42 then 0%nat else if Z.log2 n - 52 <? -32 then 1%nat
       else if Z.log2 n - 52 <? -22 then 2%nat else 3%nat)).
  { pose proof (Z.log2_lt_pow2 n 10 ltac:(lia)) as H10.
    pose proof (Z.log2_lt_pow2 n 20 ltac:(lia)) as H20.
    pose proof (Z.log2_lt_pow2 n 30 ltac:(lia)) as H30.
    change (2 ^ 10) with 1024 in H10. change (2 ^ 20) with (1024 ^ 2) in H20.
    change (2 ^ 30) with (1024 ^ 3) in H30.
    destruct (Z.ltb_spec n 1024), (Z.ltb_spec n (1024 ^ 2)),
      (Z.ltb_spec n (1024 ^ 3)), (Z.ltb_spec (Z.log2 n - 52) (-42)),
      (Z.ltb_spec (Z.log2 n - 52) (-32)), (Z.ltb_spec (Z.log2 n - 52) (-22));
      try reflexivity; lia. }
  rewrite Hidx, E.
  pose proof (scaleFileSize_normal m (Z.log2 n - 52)) as Hloop. cbv zeta in Hloop.
  split.
  - intros extra. apply Hloop; [exact Hd | lia].
  - unfold formatFileSize. change (length units - 1)%nat with (3 + 0)%nat.
    rewrite (Hloop 0%nat Hd ltac:(lia)). reflexivity.
Qed.

Lemma formatFileSize_units_witness :
  exists size,
    scaleFileSize 3 (of_Z 1536) 0 = (size, 1%nat)
    /\ mul size (of_Z 2) = of_Z 3.
Proof.
  destruct (formatFileSize_units (fun _ _ => EmptyString) 1536)
    as (m & e & E & Hloop & _).
  - split; reflexivity.
  - exists (S754_finite false m (e - 10 * Z.of_nat 1)).
    split; [exact (Hloop 0%nat) |].
    vm_compute in E. injection E as <- <-. vm_compute. reflexivity.
Defined.
